(** * BH1750 ambient-light sensor driver (bh1750.py): model and properties

    A shallow embedding of the MicroPython driver class [BH1750].  The
    driver object is a record of its attributes, the I2C bus is an oracle
    that answers each call from the history of bus traffic, and every method
    is a function in a state-and-exception monad that keeps the mutations
    made before an exception was raised, as Python does. *)

From Stdlib Require Import ZArith List String Bool Lia.
From Stdlib Require Import Strings.Byte.
From Stdlib Require Import Floats.SpecFloat.
Import ListNotations.
Open Scope string_scope.
Open Scope list_scope.
Open Scope Z_scope.

(** ** Module constants *)

Definition _ADDR_LOW : Z := 0x23.
Definition _ADDR_HIGH : Z := 0x5C.

Definition _POWER_DOWN : Z := 0x00.
Definition _POWER_ON : Z := 0x01.
Definition _RESET : Z := 0x07.

Definition _COMMAND_DELAY_MS : Z := 5.

Definition _MTREG_MIN : Z := 31.
Definition _MTREG_MAX : Z := 254.
Definition _MTREG_DEFAULT : Z := 69.

Definition CONTINUOUS_HIGH_RESOLUTION : Z := 0x10.
Definition CONTINUOUS_HIGH_RESOLUTION_2 : Z := 0x11.
Definition CONTINUOUS_LOW_RESOLUTION : Z := 0x13.
Definition ONE_TIME_HIGH_RESOLUTION : Z := 0x20.
Definition ONE_TIME_HIGH_RESOLUTION_2 : Z := 0x21.
Definition ONE_TIME_LOW_RESOLUTION : Z := 0x23.

(** ** Python floats: IEEE 754 binary64

    [float] values are [spec_float]s at precision 53 and maximal exponent
    1024, the doubles of CPython (on which the test suite runs) and of the
    double-precision MicroPython ports.  An [int] operand is converted by
    rounding to nearest; below 2^53 in magnitude the conversion is exact and
    the true division of two ints is the IEEE division of their
    conversions.  The driver only meets the register (at most 254), the
    reading (below 2^16) and small constants. *)

Module Float.

Definition prec : Z := 53.
Definition emax : Z := 1024.

Definition of_int (z : Z) : spec_float := binary_normalize prec emax z 0 false.
Definition mul : spec_float -> spec_float -> spec_float := SFmul prec emax.
Definition div : spec_float -> spec_float -> spec_float := SFdiv prec emax.

(** The literal [1.2]: the double nearest to 12/10. *)
Definition lit_1_2 : spec_float := S754_finite false 5404319552844595 (-52).
(** The literal [2.0]. *)
Definition lit_2_0 : spec_float := S754_finite false 4503599627370496 (-51).

(** The exact value of a finite float, as a fraction [n / d] with [d > 0]. *)
Definition to_frac (x : spec_float) : option (Z * Z) :=
  match x with
  | S754_zero _ => Some (0, 1)
  | S754_finite s m e =>
      let n := if s then Z.neg m else Z.pos m in
      Some (if 0 <=? e then (n * 2 ^ e, 1) else (n, 2 ^ (- e)))
  | _ => None
  end.

(** [|x - c| <= tol], with [c] and [tol] given in tenths. *)
Definition within_tenths (x : spec_float) (c10 tol10 : Z) : bool :=
  match to_frac x with
  | Some (n, d) => ((c10 - tol10) * d <=? 10 * n) && (10 * n <=? (c10 + tol10) * d)
  | None => false
  end.

End Float.

(** ** Exceptions, bus traffic and the bus *)

Inductive exn : Type :=
| OSError (msg : string)
| AttributeError (attr : string)
| ValueError (msg : string)
| OverflowError (msg : string)
| ZeroDivisionError.

(** One entry per call that leaves the driver: a bus scan, a one-byte write
    (with whether the bus accepted it), a two-byte read (with whether it
    succeeded) and a [time.sleep_ms]. *)
Inductive event : Type :=
| EScan
| EWrite (addr byte : Z) (ack : bool)
| ERead (addr : Z) (ok : bool)
| ESleep (ms : Z).

(** The [machine.I2C] collaborator.  Each primitive answers from the traffic
    so far; [inl msg] and [Some msg] stand for [OSError] raised by the bus,
    [msg] being what [str(e)] gives.  [readfrom_into] is handed the caller's
    buffer itself, so a read that raises may already have put bytes into it:
    [read_residue] maps what the buffer held to what it holds after such a
    read. *)
Record I2C : Type := {
  scan : list event -> string + list Z;
  writeto : list event -> Z -> Z -> option string;
  readfrom_into : list event -> Z -> string + (byte * byte);
  read_residue : list event -> Z -> byte * byte -> byte * byte
}.

(** ** The driver object

    An attribute that has not been assigned yet is [None]; reading it raises
    [AttributeError].  [i2c] is assigned by the first statement of
    [__init__], so the object is modelled from that point on. *)
Record BH1750 : Type := {
  i2c : I2C;
  addr : option Z;
  _write_buf : option Z;
  _read_buf : option (byte * byte);
  mtreg : option Z;
  mode : option Z
}.

Definition blank (bus : I2C) : BH1750 :=
  {| i2c := bus; addr := None; _write_buf := None; _read_buf := None;
     mtreg := None; mode := None |}.

Definition with_addr (a : Z) (o : BH1750) : BH1750 :=
  {| i2c := i2c o; addr := Some a; _write_buf := _write_buf o;
     _read_buf := _read_buf o; mtreg := mtreg o; mode := mode o |}.
Definition with_write_buf (b : Z) (o : BH1750) : BH1750 :=
  {| i2c := i2c o; addr := addr o; _write_buf := Some b;
     _read_buf := _read_buf o; mtreg := mtreg o; mode := mode o |}.
Definition with_read_buf (b : byte * byte) (o : BH1750) : BH1750 :=
  {| i2c := i2c o; addr := addr o; _write_buf := _write_buf o;
     _read_buf := Some b; mtreg := mtreg o; mode := mode o |}.
Definition with_mtreg (v : Z) (o : BH1750) : BH1750 :=
  {| i2c := i2c o; addr := addr o; _write_buf := _write_buf o;
     _read_buf := _read_buf o; mtreg := Some v; mode := mode o |}.
Definition with_mode (m : Z) (o : BH1750) : BH1750 :=
  {| i2c := i2c o; addr := addr o; _write_buf := _write_buf o;
     _read_buf := _read_buf o; mtreg := mtreg o; mode := Some m |}.

(** The object together with the traffic it has caused, oldest first. *)
Record state : Type := { self : BH1750; log : list event }.

(** ** The monad of method bodies *)

Definition M (A : Type) : Type := state -> (exn + A) * state.

Definition ret {A} (a : A) : M A := fun s => (inr a, s).
Definition raise {A} (e : exn) : M A := fun s => (inl e, s).
Definition bind {A B} (c : M A) (k : A -> M B) : M B :=
  fun s => match c s with
           | (inr a, s') => k a s'
           | (inl e, s') => (inl e, s')
           end.

(** [try: c  except OSError as e: h(str(e))]; other exceptions pass. *)
Definition try_OSError {A} (c : M A) (h : string -> M A) : M A :=
  fun s => match c s with
           | (inl (OSError msg), s') => h msg s'
           | r => r
           end.

Declare Scope py_scope.
Delimit Scope py_scope with py.
Notation "x <- c ;; k" := (bind c (fun x => k))
  (at level 61, c at next level, right associativity) : py_scope.
Notation "c ;;; k" := (bind c (fun _ => k))
  (at level 61, right associativity) : py_scope.
Open Scope py_scope.

Definition getattr {A} (name : string) (f : BH1750 -> option A) : M A :=
  fun s => match f (self s) with
           | Some v => (inr v, s)
           | None => (inl (AttributeError name), s)
           end.
Definition setattr (upd : BH1750 -> BH1750) : M unit :=
  fun s => (inr tt, {| self := upd (self s); log := log s |}).
Definition emit (e : event) : M unit :=
  fun s => (inr tt, {| self := self s; log := log s ++ [e] |}).
Definition history : M (list event) := fun s => (inr (log s), s).
Definition bus : M I2C := fun s => (inr (i2c (self s)), s).

Definition lift {A} (r : exn + A) : M A := fun s => (r, s).

Definition sleep_ms (ms : Z) : M unit := emit (ESleep ms).

(** ** Methods of [BH1750] *)

Definition byte_val (b : byte) : Z := Z.of_N (Byte.to_N b).

(** [x in (a, b, ...)] on ints. *)
Definition in_tuple (x : Z) (l : list Z) : bool := existsb (Z.eqb x) l.

(** [self._write_buf[0] = cmd]: a bytearray item takes an int in
    [range(0, 256)] only (ValueError otherwise, as in the CPython the test
    suite runs on). *)
Definition setitem_write_buf (cmd : Z) : M unit :=
  _ <- getattr "_write_buf" _write_buf ;;
  if (0 <=? cmd) && (cmd <? 256) then setattr (with_write_buf cmd)
  else raise (ValueError "byte must be in range(0, 256)").

(** [self.i2c.writeto(self.addr, self._write_buf)] *)
Definition i2c_writeto : M unit :=
  b <- bus ;;
  a <- getattr "addr" addr ;;
  buf <- getattr "_write_buf" _write_buf ;;
  h <- history ;;
  match writeto b h a buf with
  | None => emit (EWrite a buf true)
  | Some msg => emit (EWrite a buf false) ;;; raise (OSError msg)
  end.

Definition _write_cmd (cmd : Z) : M unit :=
  try_OSError
    (setitem_write_buf cmd ;;; i2c_writeto)
    (fun e => raise (OSError ("BH1750 I2C write failed: " ++ e)%string)).

Definition _autodetect_addr : M Z :=
  try_OSError
    (b <- bus ;;
     h <- history ;;
     match scan b h with
     | inl msg => emit EScan ;;; raise (OSError msg)
     | inr addrs =>
         emit EScan ;;;
         if in_tuple _ADDR_LOW addrs then ret _ADDR_LOW
         else if in_tuple _ADDR_HIGH addrs then ret _ADDR_HIGH
         else raise (OSError "BH1750 not found on I2C bus")
     end)
    (fun e => raise (OSError ("I2C scan failed: " ++ e)%string)).

Definition power_on : M unit :=
  _write_cmd _POWER_ON ;;; sleep_ms _COMMAND_DELAY_MS.

Definition power_down : M unit :=
  _write_cmd _POWER_DOWN.

Definition reset : M unit :=
  _write_cmd _RESET ;;; sleep_ms _COMMAND_DELAY_MS.

Definition clamp_mtreg (v : Z) : Z := Z.max _MTREG_MIN (Z.min v _MTREG_MAX).
Definition high_byte (c : Z) : Z := Z.lor 0x40 (Z.shiftr c 5).
Definition low_byte (c : Z) : Z := Z.lor 0x60 (Z.land c 0x1F).

Definition set_mtreg (v : Z) : M unit :=
  setattr (with_mtreg (clamp_mtreg v)) ;;;
  c <- getattr "mtreg" mtreg ;;
  let high := high_byte c in
  c' <- getattr "mtreg" mtreg ;;
  let low := low_byte c' in
  _write_cmd high ;;;
  _write_cmd low.

Definition set_mode (m : Z) (force : bool) : M unit :=
  cur <- getattr "mode" mode ;;
  if (cur =? m) && negb force then ret tt
  else
    setattr (with_mode m) ;;;
    (m' <- getattr "mode" mode ;;
     _write_cmd m').

Definition raw : M Z :=
  try_OSError
    (b <- bus ;;
     a <- getattr "addr" addr ;;
     old <- getattr "_read_buf" _read_buf ;;
     h <- history ;;
     match readfrom_into b h a with
     | inl msg =>
         emit (ERead a false) ;;;
         setattr (with_read_buf (read_residue b h a old)) ;;;
         raise (OSError msg)
     | inr data =>
         emit (ERead a true) ;;;
         setattr (with_read_buf data) ;;;
         (buf <- getattr "_read_buf" _read_buf ;;
          ret (Z.lor (Z.shiftl (byte_val (fst buf)) 8) (byte_val (snd buf))))
     end)
    (fun e => raise (OSError ("BH1750 I2C read failed: " ++ e)%string)).

(** [int(x)] on a float: truncation toward zero. *)
Definition trunc (x : spec_float) : exn + Z :=
  match x with
  | S754_zero _ => inr 0
  | S754_infinity _ => inl (OverflowError "cannot convert float infinity to integer")
  | S754_nan => inl (ValueError "cannot convert float NaN to integer")
  | S754_finite s m e =>
      let a := if 0 <=? e then Z.pos m * 2 ^ e else Z.pos m / 2 ^ (- e) in
      inr (if s then - a else a)
  end.

Definition int_of_float (x : spec_float) : M Z := lift (trunc x).

(** [a / b] on two ints. *)
Definition truediv (a b : Z) : M spec_float :=
  if b =? 0 then raise ZeroDivisionError
  else ret (Float.div (Float.of_int a) (Float.of_int b)).

Definition high_res_modes : list Z :=
  [CONTINUOUS_HIGH_RESOLUTION; CONTINUOUS_HIGH_RESOLUTION_2;
   ONE_TIME_HIGH_RESOLUTION; ONE_TIME_HIGH_RESOLUTION_2].
Definition high_res_2_modes : list Z :=
  [CONTINUOUS_HIGH_RESOLUTION_2; ONE_TIME_HIGH_RESOLUTION_2].

(** The body of the [lux] property from the wait on (after the one-shot
    retrigger): wait, read, convert. *)
Definition measure : M spec_float :=
  m1 <- getattr "mode" mode ;;
  let base_ms := if in_tuple m1 high_res_modes then 180 else 24 in
  t <- getattr "mtreg" mtreg ;;
  r <- truediv t _MTREG_DEFAULT ;;
  wait_ms <- int_of_float (Float.mul (Float.of_int base_ms) r) ;;
  sleep_ms wait_ms ;;;
  (raw_val <- raw ;;
   let scaled := Float.div (Float.of_int raw_val) Float.lit_1_2 in
   t' <- getattr "mtreg" mtreg ;;
   q <- truediv _MTREG_DEFAULT t' ;;
   let lx := Float.mul scaled q in
   m2 <- getattr "mode" mode ;;
   if in_tuple m2 high_res_2_modes then ret (Float.div lx Float.lit_2_0)
   else ret lx).

Definition lux : M spec_float :=
  m0 <- getattr "mode" mode ;;
  let is_one_shot := Z.land m0 0xF0 =? 0x20 in
  (if is_one_shot then (m' <- getattr "mode" mode ;; set_mode m' true) else ret tt) ;;;
  measure.

Definition __init__ (addr0 : option Z) (mode0 mtreg0 : Z) : M unit :=
  a <- match addr0 with Some a => ret a | None => _autodetect_addr end ;;
  setattr (with_addr a) ;;;
  setattr (with_write_buf 0) ;;;
  setattr (with_read_buf (x00, x00)%byte) ;;;
  power_on ;;;
  reset ;;;
  set_mtreg mtreg0 ;;;
  set_mode mode0 true.

(** The call [BH1750(i2c, addr, mode, mtreg)]: the caller gets the object
    only when [__init__] returns. *)
Definition construct (b : I2C) (addr0 : option Z) (mode0 mtreg0 : Z)
    (h : list event) : (exn + BH1750) * list event :=
  match __init__ addr0 mode0 mtreg0 {| self := blank b; log := h |} with
  | (inr _, s) => (inr (self s), log s)
  | (inl e, s) => (inl e, log s)
  end.

(** The public operations of a controller, for statements about any of
    them. *)
Inductive op : Type :=
| PowerOn | PowerDown | Reset
| SetMtreg (v : Z)
| SetMode (m : Z) (force : bool)
| Raw | Lux.

Definition outcome {A} (r : (exn + A) * state) : option exn * state :=
  (match fst r with inl e => Some e | inr _ => None end, snd r).

(** One call: the exception it raised, if any, and the state it left. *)
Definition run (o : op) (s : state) : option exn * state :=
  match o with
  | PowerOn => outcome (power_on s)
  | PowerDown => outcome (power_down s)
  | Reset => outcome (reset s)
  | SetMtreg v => outcome (set_mtreg v s)
  | SetMode m f => outcome (set_mode m f s)
  | Raw => outcome (raw s)
  | Lux => outcome (lux s)
  end.

(** A sequence of calls by a caller that carries on after an exception. *)
Definition run_all (os : list op) (s : state) : state :=
  fold_left (fun s o => snd (run o s)) os s.

(** ** Buses and states used in examples *)

(** A bus on which the devices listed in [available] answer: every write is
    accepted and every read returns [data]. *)
Definition mock_i2c (available : list Z) (data : byte * byte) : I2C :=
  {| scan := fun _ => inr available;
     writeto := fun _ _ _ => None;
     readfrom_into := fun _ _ => inr data;
     read_residue := fun _ _ old => old |}.

(** The same bus with a device that stops acknowledging writes. *)
Definition nack_i2c (available : list Z) : I2C :=
  {| scan := fun _ => inr available;
     writeto := fun _ _ _ => Some "[Errno 19] ENODEV";
     readfrom_into := fun _ _ => inl "[Errno 19] ENODEV";
     read_residue := fun _ _ old => old |}.

(** A bus whose scan raises [OSError(msg)]. *)
Definition broken_scan_i2c (msg : string) : I2C :=
  {| scan := fun _ => inl msg;
     writeto := fun _ _ _ => None;
     readfrom_into := fun _ _ => inr (x00, x00)%byte;
     read_residue := fun _ _ old => old |}.

(** A controller with every attribute assigned. *)
Definition controller (b : I2C) (a m t : Z) : state :=
  {| self := {| i2c := b; addr := Some a; _write_buf := Some 0;
                _read_buf := Some (x00, x00)%byte;
                mtreg := Some t; mode := Some m |};
     log := [] |}.

(** ** Vocabulary of the statements *)

(** The bytes handed to the bus for transmission, in order. *)
Definition writes (l : list event) : list Z :=
  flat_map (fun e => match e with EWrite _ b _ => [b] | _ => [] end) l.


(** The controller as [__init__] leaves it before it configures the device:
    address and both buffers assigned. *)
Definition ready (s : state) (a : Z) : Prop :=
  addr (self s) = Some a /\ _write_buf (self s) <> None /\ _read_buf (self s) <> None.


(** A bus that accepts every write to address [a]. *)
Definition acks (b : I2C) (a : Z) : Prop :=
  forall h byte, writeto b h a byte = None.

(** A bus that answers every read of address [a] with [data]. *)
Definition reads (b : I2C) (a : Z) (data : byte * byte) : Prop :=
  forall h, readfrom_into b h a = inr data.

(** The measurement time of the specification: the base time of the mode
    scaled by the register, in whole milliseconds, rounded down. *)
Definition base_ms (m : Z) : Z :=
  if in_tuple m [0x10; 0x11; 0x20; 0x21] then 180 else 24.
Definition wait_floor (m t : Z) : Z := base_ms m * t / 69.

(** The conversion of the specification, in binary64 arithmetic:
    [(raw / 1.2) * (69 / t)], halved in the two high-resolution-2 modes. *)
Definition lux_formula (raw_val t m : Z) : spec_float :=
  let lx := Float.mul (Float.div (Float.of_int raw_val) Float.lit_1_2)
                      (Float.div (Float.of_int 69) (Float.of_int t)) in
  if (m =? 0x11) || (m =? 0x21) then Float.div lx Float.lit_2_0 else lx.

Definition raw16 (data : byte * byte) : Z :=
  byte_val (fst data) * 256 + byte_val (snd data).

(** The integers [lo], [lo + 1], ..., [lo + n - 1]. *)
Definition range (lo : Z) (n : nat) : list Z :=
  map (fun i => lo + Z.of_nat i) (seq 0 n).

Definition wait_agrees (base t : Z) : bool :=
  match trunc (Float.mul (Float.of_int base)
                 (Float.div (Float.of_int t) (Float.of_int _MTREG_DEFAULT))) with
  | inr w => w =? base * t / 69
  | inl _ => false
  end.

Definition bytes_agree (c : Z) : bool :=
  (0 <=? high_byte c) && (high_byte c <? 256) &&
  (0 <=? low_byte c) && (low_byte c <? 256).

(** [c] keeps a property of the object, whether it returns or raises. *)
Definition preserves {A} (P : BH1750 -> Prop) (c : M A) : Prop :=
  forall s, P (self s) -> P (self (snd (c s))).

(** Properties that do not look at the two transfer buffers. *)
Definition buffer_blind (P : BH1750 -> Prop) : Prop :=
  (forall o b, P o -> P (with_write_buf b o)) /\
  (forall o d, P o -> P (with_read_buf d o)).

(** Properties that do not look at the stored mode. *)
Definition mode_blind (P : BH1750 -> Prop) : Prop :=
  forall o m, P o -> P (with_mode m o).

(** [c] always raises, and keeps [P] while doing so. *)
Definition aborts {A} (P : BH1750 -> Prop) (c : M A) : Prop :=
  forall s, P (self s) -> exists e s', c s = (inl e, s') /\ P (self s').

(** The Python class of an exception, the only thing an [except] clause
    tests. *)
Definition exn_class (e : exn) : string :=
  match e with
  | OSError _ => "OSError"
  | AttributeError _ => "AttributeError"
  | ValueError _ => "ValueError"
  | OverflowError _ => "OverflowError"
  | ZeroDivisionError => "ZeroDivisionError"
  end.

(** The object after a read at history [h] that raised: the read buffer
    holds what the bus left in it. *)
Definition failed_read (o : BH1750) (h : list event) (a : Z) : BH1750 :=
  match _read_buf o with
  | Some old => with_read_buf (read_residue (i2c o) h a old) o
  | None => o
  end.

(** Traffic of a controller whose device sits at address [a]: writes to
    [a], reads of [a] and sleeps, never a scan. *)
Definition traffic_to (a : Z) (e : event) : Prop :=
  match e with
  | EWrite a' _ _ => a' = a
  | ERead a' _ => a' = a
  | ESleep _ => True
  | EScan => False
  end.

(** [c] keeps the stored address [a] and only adds traffic for [a]. *)
Definition talks_to {A} (a : Z) (c : M A) : Prop :=
  forall s, addr (self s) = Some a ->
    addr (self (snd (c s))) = Some a /\
    exists l, log (snd (c s)) = log s ++ l /\ Forall (traffic_to a) l.

(** The sleeps among some traffic, in order. *)
Definition sleeps (l : list event) : list Z :=
  flat_map (fun e => match e with ESleep ms => [ms] | _ => [] end) l.

(** The byte with value [z], for [0 <= z < 256]. *)
Definition byte_of_Z (z : Z) : byte :=
  match Byte.of_N (Z.to_N z) with Some b => b | None => x00%byte end.

(** The two register commands of [set_mtreg] have the shapes the source
    comments give them, [01000_MT[7:5]] and [011_MT[4:0]], and the register
    value can be read back from them. *)
Definition register_bytes_agree (c : Z) : bool :=
  (Z.land (high_byte c) 0xF8 =? 0x40) &&
  (Z.land (low_byte c) 0xE0 =? 0x60) &&
  (Z.lor (Z.shiftl (Z.land (high_byte c) 0x07) 5) (Z.land (low_byte c) 0x1F) =? c).

(** ** Running the monad *)

Arguments Float.of_int : simpl never.
Arguments Float.mul : simpl never.
Arguments Float.div : simpl never.

Ltac py_unfold :=
  cbv [bind ret raise lift getattr setattr emit history bus try_OSError
       sleep_ms int_of_float outcome fst snd
       self log i2c addr _write_buf _read_buf mtreg mode
       with_addr with_write_buf with_read_buf with_mtreg with_mode].

Lemma bind_inr {A B} (c : M A) (k : A -> M B) s a s' :
  c s = (inr a, s') -> bind c k s = k a s'.
Proof. intros H. unfold bind. now rewrite H. Qed.

Lemma bind_inl {A B} (c : M A) (k : A -> M B) s e s' :
  c s = (inl e, s') -> bind c k s = (inl e, s').
Proof. intros H. unfold bind. now rewrite H. Qed.

Lemma byte_range_test (z : Z) :
  0 <= z < 256 -> (0 <=? z) && (z <? 256) = true.
Proof. intros [H1 H2]. apply andb_true_iff. split; [apply Z.leb_le | apply Z.ltb_lt]; lia. Qed.

(** What one command write does on a controller that has its address and
    write buffer: the byte goes into the buffer and onto the bus, and the
    bus decides the outcome. *)
Lemma _write_cmd_run (s : state) (cmd a wb : Z) :
  addr (self s) = Some a -> _write_buf (self s) = Some wb -> 0 <= cmd < 256 ->
  _write_cmd cmd s =
    match writeto (i2c (self s)) (log s) a cmd with
    | None =>
        (inr tt, {| self := with_write_buf cmd (self s);
                    log := log s ++ [EWrite a cmd true] |})
    | Some msg =>
        (inl (OSError ("BH1750 I2C write failed: " ++ msg)%string),
         {| self := with_write_buf cmd (self s);
            log := log s ++ [EWrite a cmd false] |})
    end.
Proof.
  destruct s as [[b a0 wb0 rb t m] l]. simpl. intros -> -> Hr.
  unfold _write_cmd, setitem_write_buf, i2c_writeto. py_unfold.
  rewrite (byte_range_test _ Hr).
  destruct (writeto b l a cmd); reflexivity.
Qed.

(** ** Properties kept by the methods *)

Section Preservation.

Context {A B : Type} (P : BH1750 -> Prop).

Lemma preserves_ret (a : A) : preserves P (ret a).
Proof. intros s H. exact H. Qed.

Lemma preserves_raise (e : exn) : preserves P (@raise A e).
Proof. intros s H. exact H. Qed.

Lemma preserves_lift (r : exn + A) : preserves P (lift r).
Proof. intros s H. exact H. Qed.

Lemma preserves_getattr (n : string) (f : BH1750 -> option A) :
  preserves P (getattr n f).
Proof. intros s H. unfold getattr. destruct (f (self s)); exact H. Qed.

Lemma preserves_emit (e : event) : preserves P (emit e).
Proof. intros s H. exact H. Qed.

Lemma preserves_history : preserves P history.
Proof. intros s H. exact H. Qed.

Lemma preserves_bus : preserves P bus.
Proof. intros s H. exact H. Qed.

Lemma preserves_setattr (upd : BH1750 -> BH1750) :
  (forall o, P o -> P (upd o)) -> preserves P (setattr upd).
Proof. intros Hu s H. simpl. auto. Qed.

Lemma preserves_bind (c : M A) (k : A -> M B) :
  preserves P c -> (forall a, preserves P (k a)) -> preserves P (bind c k).
Proof.
  intros Hc Hk s H. unfold bind. specialize (Hc s H).
  destruct (c s) as [[e | a] s']; simpl in *; [exact Hc | now apply Hk].
Qed.

Lemma preserves_try (c : M A) (h : string -> M A) :
  preserves P c -> (forall msg, preserves P (h msg)) -> preserves P (try_OSError c h).
Proof.
  intros Hc Hh s H. unfold try_OSError. specialize (Hc s H).
  destruct (c s) as [[[msg | | | |] | a] s']; simpl in *; try exact Hc.
  now apply Hh.
Qed.

End Preservation.

Ltac pres :=
  repeat first
    [ apply preserves_bind; [ | intros ? ]
    | apply preserves_try; [ | intros ? ]
    | apply preserves_ret
    | apply preserves_raise
    | apply preserves_lift
    | apply preserves_getattr
    | apply preserves_emit
    | apply preserves_history
    | apply preserves_bus
    | apply preserves_setattr; solve [ auto ]
    | match goal with
      | |- preserves _ (match ?x with _ => _ end) => destruct x
      end ].

Lemma preserves_write_cmd (P : BH1750 -> Prop) (cmd : Z) :
  buffer_blind P -> preserves P (_write_cmd cmd).
Proof.
  intros [Hw Hr]. unfold _write_cmd, setitem_write_buf, i2c_writeto. pres.
Qed.

Lemma preserves_raw (P : BH1750 -> Prop) :
  buffer_blind P -> preserves P raw.
Proof. intros [Hw Hr]. unfold raw. pres. Qed.

Lemma preserves_power_on (P : BH1750 -> Prop) :
  buffer_blind P -> preserves P power_on.
Proof.
  intros HP. unfold power_on, sleep_ms.
  apply preserves_bind; [now apply preserves_write_cmd | intros; apply preserves_emit].
Qed.

Lemma preserves_power_down (P : BH1750 -> Prop) :
  buffer_blind P -> preserves P power_down.
Proof. intros HP. now apply preserves_write_cmd. Qed.

Lemma preserves_reset (P : BH1750 -> Prop) :
  buffer_blind P -> preserves P reset.
Proof.
  intros HP. unfold reset, sleep_ms.
  apply preserves_bind; [now apply preserves_write_cmd | intros; apply preserves_emit].
Qed.

Lemma preserves_set_mode (P : BH1750 -> Prop) (m : Z) (force : bool) :
  buffer_blind P -> mode_blind P -> preserves P (set_mode m force).
Proof.
  intros HP Hm. unfold set_mode.
  apply preserves_bind; [apply preserves_getattr | intros cur].
  destruct ((cur =? m) && negb force); [apply preserves_ret | ].
  apply preserves_bind; [apply preserves_setattr; intros; now apply Hm | intros _].
  apply preserves_bind; [apply preserves_getattr | intros; now apply preserves_write_cmd].
Qed.

Lemma preserves_set_mtreg_writes (P : BH1750 -> Prop) (v : Z) :
  buffer_blind P -> (forall o, P o -> P (with_mtreg (clamp_mtreg v) o)) ->
  preserves P (set_mtreg v).
Proof.
  intros HP Ht. unfold set_mtreg.
  apply preserves_bind; [now apply preserves_setattr | intros _].
  apply preserves_bind; [apply preserves_getattr | intros c].
  apply preserves_bind; [apply preserves_getattr | intros c'].
  apply preserves_bind; intros; now apply preserves_write_cmd.
Qed.

Lemma preserves_lux (P : BH1750 -> Prop) :
  buffer_blind P -> mode_blind P -> preserves P lux.
Proof.
  intros [Hw Hr] Hm. unfold mode_blind in Hm.
  unfold lux, measure, truediv, sleep_ms, int_of_float. pres.
Qed.

Lemma mtreg_is_buffer_blind (x : option Z) : buffer_blind (fun o => mtreg o = x).
Proof. split; intros o b H; exact H. Qed.


Lemma mode_is_buffer_blind (x : option Z) : buffer_blind (fun o => mode o = x).
Proof. split; intros o b H; exact H. Qed.

Lemma addr_is_buffer_blind (x : option Z) : buffer_blind (fun o => addr o = x).
Proof. split; intros o b H; exact H. Qed.

Lemma addr_is_mode_blind (x : option Z) : mode_blind (fun o => addr o = x).
Proof. intros o m H; exact H. Qed.



(** [set_mtreg] assigns the clamped value first; nothing after that touches
    the register, whatever the bus answers. *)
Lemma set_mtreg_stores (v : Z) (s : state) :
  mtreg (self (snd (set_mtreg v s))) = Some (clamp_mtreg v).
Proof.
  unfold set_mtreg.
  rewrite (bind_inr _ _ s tt
             {| self := with_mtreg (clamp_mtreg v) (self s); log := log s |} eq_refl).
  match goal with
  | |- mtreg (self (snd (?c ?s0))) = ?x =>
      assert (Hp : preserves (fun o => mtreg o = x) c)
  end.
  { apply preserves_bind; [apply preserves_getattr | intros c].
    apply preserves_bind; [apply preserves_getattr | intros c'].
    apply preserves_bind; intros;
      apply preserves_write_cmd, mtreg_is_buffer_blind. }
  apply Hp. reflexivity.
Qed.

Lemma clamp_mtreg_range (v : Z) : _MTREG_MIN <= clamp_mtreg v <= _MTREG_MAX.
Proof. unfold clamp_mtreg, _MTREG_MIN, _MTREG_MAX. lia. Qed.

(** The stored mode after [set_mode], on a controller that has one. *)
Lemma set_mode_stores (m : Z) (force : bool) (s : state) (cur : Z) :
  mode (self s) = Some cur ->
  mode (self (snd (set_mode m force s))) =
    Some (if (cur =? m) && negb force then cur else m).
Proof.
  intros Hc. unfold set_mode.
  rewrite (bind_inr _ _ s cur s) by (unfold getattr; now rewrite Hc).
  destruct ((cur =? m) && negb force); [exact Hc | ].
  rewrite (bind_inr _ _ s tt
             {| self := with_mode m (self s); log := log s |} eq_refl).
  match goal with
  | |- mode (self (snd (?c ?s0))) = ?x =>
      assert (Hp : preserves (fun o => mode o = x) c)
  end.
  { apply preserves_bind; [apply preserves_getattr | intros c].
    apply preserves_write_cmd, mode_is_buffer_blind. }
  apply Hp. reflexivity.
Qed.

Lemma lux_keeps_mode (s : state) :
  mode (self (snd (lux s))) = mode (self s).
Proof.
  destruct (mode (self s)) as [m0 | ] eqn:Hm.
  2:{ unfold lux. rewrite (bind_inl _ _ s (AttributeError "mode") s); [exact Hm | ].
      unfold getattr. now rewrite Hm. }
  unfold lux.
  rewrite (bind_inr _ _ s m0 s) by (unfold getattr; now rewrite Hm).
  match goal with
  | |- mode (self (snd (?c ?s0))) = ?x =>
      assert (Hp : preserves (fun o => mode o = x) c)
  end.
  { apply preserves_bind.
    - destruct (Z.land m0 240 =? 32); [ | apply preserves_ret].
      intros s0 H0.
      rewrite (bind_inr _ _ s0 m0 s0) by (unfold getattr; now rewrite H0).
      rewrite (set_mode_stores m0 true s0 m0 H0).
      now destruct ((m0 =? m0) && negb true).
    - intros _. unfold measure, truediv, sleep_ms, int_of_float.
      pres. }
  apply Hp. exact Hm.
Qed.

(** ** Exhaustive checks over the register range *)

Lemma in_range (lo : Z) (n : nat) (x : Z) :
  lo <= x < lo + Z.of_nat n -> In x (range lo n).
Proof.
  intros H. unfold range. apply in_map_iff.
  exists (Z.to_nat (x - lo)). split; [lia | ].
  apply in_seq. lia.
Qed.

Lemma forall_mtreg (f : Z -> bool) :
  forallb f (range 31 224) = true ->
  forall t, _MTREG_MIN <= t <= _MTREG_MAX -> f t = true.
Proof.
  intros H t Ht. unfold _MTREG_MIN, _MTREG_MAX in Ht.
  apply (proj1 (forallb_forall f (range 31 224)) H).
  apply in_range. lia.
Qed.

Lemma command_bytes_fit (c : Z) :
  _MTREG_MIN <= c <= _MTREG_MAX ->
  0 <= high_byte c < 256 /\ 0 <= low_byte c < 256.
Proof.
  intros Hc.
  assert (H : bytes_agree c = true)
    by (revert c Hc; apply forall_mtreg; vm_compute; reflexivity).
  unfold bytes_agree in H.
  repeat (apply andb_true_iff in H; destruct H as [H ?]).
  repeat match goal with
         | H : (_ <=? _) = true |- _ => apply Z.leb_le in H
         | H : (_ <? _) = true |- _ => apply Z.ltb_lt in H
         end.
  lia.
Qed.

(** Truncating the binary64 product [base * (t / 69)] gives the integer
    quotient, for both base times and every register value. *)
Lemma wait_ms_is_floor (base t : Z) :
  base = 180 \/ base = 24 -> _MTREG_MIN <= t <= _MTREG_MAX ->
  trunc (Float.mul (Float.of_int base)
           (Float.div (Float.of_int t) (Float.of_int _MTREG_DEFAULT)))
  = inr (base * t / 69).
Proof.
  intros Hb Ht.
  assert (H : wait_agrees base t = true).
  { revert t Ht. apply forall_mtreg.
    destruct Hb as [-> | ->]; vm_compute; reflexivity. }
  unfold wait_agrees in H.
  destruct (trunc _) as [e | w]; [discriminate | ].
  apply Z.eqb_eq in H. now subst.
Qed.

(** ** Exact runs on a ready controller *)

Lemma set_mode_run (s : state) (a cur m : Z) (force : bool) :
  ready s a -> mode (self s) = Some cur -> 0 <= m < 256 ->
  set_mode m force s =
    if (cur =? m) && negb force then (inr tt, s)
    else
      match writeto (i2c (self s)) (log s) a m with
      | None =>
          (inr tt, {| self := with_write_buf m (with_mode m (self s));
                      log := log s ++ [EWrite a m true] |})
      | Some msg =>
          (inl (OSError ("BH1750 I2C write failed: " ++ msg)%string),
           {| self := with_write_buf m (with_mode m (self s));
              log := log s ++ [EWrite a m false] |})
      end.
Proof.
  destruct s as [[b a0 wb rb t md] l]. unfold ready. simpl.
  intros (-> & Hw & _) -> Hr.
  destruct wb as [wb | ]; [ | congruence].
  unfold set_mode. py_unfold.
  destruct ((cur =? m) && negb force); [reflexivity | ].
  erewrite (_write_cmd_run _ m a wb); [ | reflexivity | reflexivity | exact Hr].
  reflexivity.
Qed.

Lemma set_mtreg_run (s : state) (a v : Z) :
  ready s a ->
  let c := clamp_mtreg v in
  let o1 := with_mtreg c (self s) in
  set_mtreg v s =
    match writeto (i2c (self s)) (log s) a (high_byte c) with
    | Some msg =>
        (inl (OSError ("BH1750 I2C write failed: " ++ msg)%string),
         {| self := with_write_buf (high_byte c) o1;
            log := log s ++ [EWrite a (high_byte c) false] |})
    | None =>
        let l1 := log s ++ [EWrite a (high_byte c) true] in
        match writeto (i2c (self s)) l1 a (low_byte c) with
        | Some msg =>
            (inl (OSError ("BH1750 I2C write failed: " ++ msg)%string),
             {| self := with_write_buf (low_byte c) o1;
                log := l1 ++ [EWrite a (low_byte c) false] |})
        | None =>
            (inr tt, {| self := with_write_buf (low_byte c) o1;
                        log := l1 ++ [EWrite a (low_byte c) true] |})
        end
    end.
Proof.
  destruct s as [[b a0 wb rb t md] l]. unfold ready. simpl.
  intros (-> & Hw & _).
  destruct wb as [wb | ]; [ | congruence].
  destruct (command_bytes_fit _ (clamp_mtreg_range v)) as [Hh Hl].
  unfold set_mtreg. py_unfold.
  erewrite (_write_cmd_run _ _ a wb); [ | reflexivity | reflexivity | exact Hh].
  py_unfold.
  destruct (writeto b l a (high_byte (clamp_mtreg v))); [reflexivity | ].
  erewrite (_write_cmd_run _ _ a (high_byte (clamp_mtreg v)));
    [ | reflexivity | reflexivity | exact Hl].
  py_unfold.
  destruct (writeto b _ a (low_byte (clamp_mtreg v))); reflexivity.
Qed.

Lemma byte_val_range (b : byte) : 0 <= byte_val b < 256.
Proof.
  unfold byte_val. pose proof (Byte.to_N_bounded b) as H. lia.
Qed.

(** [(hi << 8) | lo] is the big-endian reading of the two bytes. *)
Lemma raw_big_endian (d : byte * byte) :
  Z.lor (Z.shiftl (byte_val (fst d)) 8) (byte_val (snd d)) = raw16 d.
Proof.
  unfold raw16.
  pose proof (byte_val_range (fst d)) as Hh.
  pose proof (byte_val_range (snd d)) as Hl.
  set (h := byte_val (fst d)) in *. set (l := byte_val (snd d)) in *.
  rewrite Z.shiftl_mul_pow2 by lia. change (2 ^ 8) with 256.
  rewrite <- Z.lxor_lor, <- Z.add_nocarry_lxor; trivial.
  all: apply Z.bits_inj'; intros n Hn; rewrite Z.land_spec, Z.bits_0;
    destruct (Z.ltb_spec n 8) as [Hlt | Hge].
  all: try (replace (h * 256) with (h * 2 ^ 8) by reflexivity;
            rewrite Z.mul_pow2_bits_low by lia; reflexivity).
  all: rewrite (Z.bits_above_log2 l n); [apply andb_false_r | lia | ].
  all: destruct (Z.eq_dec l 0) as [-> | Hnz]; [simpl; lia | ].
  all: apply Z.log2_lt_pow2; [lia | ].
  all: apply Z.lt_le_trans with (2 ^ 8); [simpl; lia | apply Z.pow_le_mono_r; lia].
Qed.

Lemma raw16_range (d : byte * byte) : 0 <= raw16 d < 65536.
Proof.
  unfold raw16.
  pose proof (byte_val_range (fst d)). pose proof (byte_val_range (snd d)). lia.
Qed.

Lemma failed_read_frame (o : BH1750) (h : list event) (a : Z) :
  i2c (failed_read o h a) = i2c o /\ addr (failed_read o h a) = addr o /\
  _write_buf (failed_read o h a) = _write_buf o /\
  mtreg (failed_read o h a) = mtreg o /\ mode (failed_read o h a) = mode o /\
  (_read_buf o <> None -> _read_buf (failed_read o h a) <> None).
Proof.
  unfold failed_read. destruct (_read_buf o) as [old | ] eqn:E; cbn.
  - repeat split. discriminate.
  - repeat split. now rewrite E.
Qed.

Lemma raw_run (s : state) (a : Z) :
  ready s a ->
  raw s =
    match readfrom_into (i2c (self s)) (log s) a with
    | inl msg =>
        (inl (OSError ("BH1750 I2C read failed: " ++ msg)%string),
         {| self := failed_read (self s) (log s) a;
            log := log s ++ [ERead a false] |})
    | inr d =>
        (inr (raw16 d),
         {| self := with_read_buf d (self s); log := log s ++ [ERead a true] |})
    end.
Proof.
  destruct s as [[b a0 wb rb t md] l]. unfold ready. simpl.
  intros (-> & _ & Hrb).
  destruct rb as [rb | ]; [ | congruence].
  unfold raw, failed_read. py_unfold.
  destruct (readfrom_into b l a) as [msg | d]; [reflexivity | ].
  rewrite <- raw_big_endian. reflexivity.
Qed.

Lemma measure_run (s : state) (a m t : Z) :
  ready s a -> mode (self s) = Some m -> mtreg (self s) = Some t ->
  _MTREG_MIN <= t <= _MTREG_MAX ->
  measure s =
    let l1 := log s ++ [ESleep (wait_floor m t)] in
    match readfrom_into (i2c (self s)) l1 a with
    | inl msg =>
        (inl (OSError ("BH1750 I2C read failed: " ++ msg)%string),
         {| self := failed_read (self s) l1 a; log := l1 ++ [ERead a false] |})
    | inr d =>
        (inr (lux_formula (raw16 d) t m),
         {| self := with_read_buf d (self s); log := l1 ++ [ERead a true] |})
    end.
Proof.
  intros Hr Hm Ht Hrange.
  assert (Hw : trunc (Float.mul (Float.of_int (if in_tuple m high_res_modes then 180 else 24))
                 (Float.div (Float.of_int t) (Float.of_int _MTREG_DEFAULT)))
               = inr (wait_floor m t)).
  { unfold wait_floor, base_ms.
    change [16; 17; 32; 33] with high_res_modes.
    destruct (in_tuple m high_res_modes); apply wait_ms_is_floor; auto. }
  assert (Hnz : (t =? 0) = false) by (apply Z.eqb_neq; unfold _MTREG_MIN in Hrange; lia).
  destruct s as [[b a0 wb rb t0 md] l]. unfold ready in Hr. simpl in Hr, Hm, Ht.
  destruct Hr as (-> & Hwb & Hrb). subst.
  unfold measure, truediv. py_unfold.
  change (_MTREG_DEFAULT =? 0) with false. py_unfold.
  rewrite Hw. py_unfold.
  erewrite raw_run by (unfold ready; simpl; eauto).
  py_unfold.
  destruct (readfrom_into b _ a) as [msg | d]; [reflexivity | ].
  rewrite Hnz. py_unfold.
  unfold lux_formula, in_tuple, high_res_2_modes. cbn [existsb].
  rewrite orb_false_r.
  change CONTINUOUS_HIGH_RESOLUTION_2 with 17.
  change ONE_TIME_HIGH_RESOLUTION_2 with 33.
  destruct ((m =? 17) || (m =? 33)); reflexivity.
Qed.

(** [lux] is the forced re-issue of the stored mode, in one-shot modes,
    followed by the measurement. *)
Lemma lux_run (s : state) (m : Z) :
  mode (self s) = Some m ->
  lux s =
    if Z.land m 0xF0 =? 0x20 then
      match set_mode m true s with
      | (inr _, s1) => measure s1
      | (inl e, s1) => (inl e, s1)
      end
    else measure s.
Proof.
  destruct s as [[b a0 wb rb t0 md] l]. simpl. intros ->.
  unfold lux. py_unfold.
  destruct (Z.land m 240 =? 32); [ | reflexivity].
  destruct (set_mode m true _) as [[e | []] s1]; reflexivity.
Qed.

(** ** Construction *)

Lemma aborts_bind {A B} (P : BH1750 -> Prop) (c : M A) (k : A -> M B) :
  preserves P c -> (forall a, aborts P (k a)) -> aborts P (bind c k).
Proof.
  intros Hc Hk s HP. unfold bind. specialize (Hc s HP).
  destruct (c s) as [[e | a] s']; simpl in Hc.
  - now exists e, s'.
  - now apply Hk.
Qed.

Lemma set_mode_aborts (m : Z) (force : bool) :
  aborts (fun o => mode o = None) (set_mode m force).
Proof.
  intros s Hm. exists (AttributeError "mode"), s. split; [ | exact Hm].
  unfold set_mode. apply bind_inl. unfold getattr. now rewrite Hm.
Qed.

Lemma preserves_autodetect (P : BH1750 -> Prop) : preserves P _autodetect_addr.
Proof. unfold _autodetect_addr. pres. Qed.

(** [__init__] never assigns [self.mode] before it calls [set_mode], so that
    call raises: no run of the constructor returns. *)
Lemma init_aborts (addr0 : option Z) (mode0 mtreg0 : Z) :
  aborts (fun o => mode o = None) (__init__ addr0 mode0 mtreg0).
Proof.
  unfold __init__.
  apply aborts_bind; [destruct addr0; [apply preserves_ret | apply preserves_autodetect] | intros a].
  apply aborts_bind; [now apply preserves_setattr | intros _].
  apply aborts_bind; [now apply preserves_setattr | intros _].
  apply aborts_bind; [now apply preserves_setattr | intros _].
  apply aborts_bind; [apply preserves_power_on, mode_is_buffer_blind | intros _].
  apply aborts_bind; [apply preserves_reset, mode_is_buffer_blind | intros _].
  apply aborts_bind; [ | intros _; apply set_mode_aborts].
  apply preserves_set_mtreg_writes; [apply mode_is_buffer_blind | auto].
Qed.

Lemma in_tuple_false (x : Z) (l : list Z) : ~ In x l -> in_tuple x l = false.
Proof.
  intros H. unfold in_tuple. destruct (existsb (Z.eqb x) l) eqn:E; [ | reflexivity].
  apply existsb_exists in E. destruct E as (y & Hy & Heq).
  apply Z.eqb_eq in Heq. subst. contradiction.
Qed.

Lemma construct_scan_failure (b : I2C) (md mt : Z) (h : list event) (msg : string) :
  scan b h = inl msg ->
  construct b None md mt h =
    (inl (OSError ("I2C scan failed: " ++ msg)%string), h ++ [EScan]).
Proof.
  intros Hs. unfold construct, __init__, _autodetect_addr, blank. py_unfold.
  rewrite Hs. reflexivity.
Qed.

(** ** Claims *)

(** C1 (refuted on the code): construction on a bus where the device answers
    at the low address should succeed with the low address stored and
    power-on, reset and the mode byte transmitted.  The constructor calls
    [set_mode] before any mode was stored, so for every bus and every
    argument it raises and no controller is returned; on the test suite's
    bus it raises AttributeError after power-on, reset and the two register
    bytes, and the mode byte 0x10 is never transmitted. *)
Theorem construct_never_returns :
  (forall b addr0 mode0 mtreg0 h,
      exists e, fst (construct b addr0 mode0 mtreg0 h) = inl e) /\
  construct (mock_i2c [_ADDR_LOW] (x00, x00)%byte) None
            CONTINUOUS_HIGH_RESOLUTION _MTREG_DEFAULT [] =
    (inl (AttributeError "mode"),
     [EScan; EWrite 0x23 0x01 true; ESleep 5; EWrite 0x23 0x07 true; ESleep 5;
      EWrite 0x23 0x42 true; EWrite 0x23 0x65 true]).
Proof.
  split; [ | reflexivity].
  intros b addr0 mode0 mtreg0 h. unfold construct.
  destruct (init_aborts addr0 mode0 mtreg0 {| self := blank b; log := h |} eq_refl)
    as (e & s' & -> & _).
  now exists e.
Qed.

(** C2: on a controller in which no mode was ever stored, [set_mode] reads
    the stored mode before it looks at [force]: for every mode and every
    force flag the call raises AttributeError and leaves the controller and
    the bus traffic exactly as they were, so nothing is transmitted.  No run
    of [__init__] stores a mode, so this is the state in which the
    constructor makes its [set_mode] call. *)
Theorem set_mode_reads_mode_before_force (s : state) (m : Z) (force : bool) :
  mode (self s) = None ->
  set_mode m force s = (inl (AttributeError "mode"), s) /\
  writes (log (snd (set_mode m force s))) = writes (log s) /\
  (forall b addr0 mode0 mtreg0 h,
      mode (self (snd (__init__ addr0 mode0 mtreg0
                         {| self := blank b; log := h |}))) = None).
Proof.
  intros Hm.
  assert (H : set_mode m force s = (inl (AttributeError "mode"), s)).
  { unfold set_mode. apply bind_inl. unfold getattr. now rewrite Hm. }
  rewrite H. split; [reflexivity | split; [reflexivity | ]].
  intros b addr0 mode0 mtreg0 h.
  destruct (init_aborts addr0 mode0 mtreg0 {| self := blank b; log := h |} eq_refl)
    as (e & s' & -> & Hs').
  exact Hs'.
Qed.

Lemma set_mode_reads_mode_before_force_witness :
  set_mode ONE_TIME_HIGH_RESOLUTION true
    {| self := blank (mock_i2c [_ADDR_LOW] (x00, x00)%byte); log := [] |}
  = (inl (AttributeError "mode"),
     {| self := blank (mock_i2c [_ADDR_LOW] (x00, x00)%byte); log := [] |}).
Proof.
  apply (set_mode_reads_mode_before_force
           {| self := blank (mock_i2c [_ADDR_LOW] (x00, x00)%byte); log := [] |}
           ONE_TIME_HIGH_RESOLUTION true).
  reflexivity.
Defined.

(** C7 (as stated, refuted): a missing device is not reported by an error
    kind of its own.  With an empty scan the constructor raises an OSError,
    the class it also raises when the bus itself fails (here a scan that
    times out): an [except] clause cannot tell the two apart. *)
Lemma not_found_is_an_OSError :
  let not_found :=
    fst (construct (mock_i2c [] (x00, x00)%byte) None
           CONTINUOUS_HIGH_RESOLUTION _MTREG_DEFAULT []) in
  let bus_failure :=
    fst (construct (broken_scan_i2c "[Errno 110] ETIMEDOUT") None
           CONTINUOUS_HIGH_RESOLUTION _MTREG_DEFAULT []) in
  not_found = inl (OSError "I2C scan failed: BH1750 not found on I2C bus") /\
  bus_failure = inl (OSError "I2C scan failed: [Errno 110] ETIMEDOUT") /\
  (forall e1 e2, not_found = inl e1 -> bus_failure = inl e2 ->
                 exn_class e1 = exn_class e2).
Proof.
  split; [reflexivity | split; [reflexivity | ]].
  intros e1 e2 H1 H2. injection H1 as <-. injection H2 as <-. reflexivity.
Qed.

(** C7 (amended): when the scan lists neither candidate address,
    construction without an explicit address fails, having done nothing on
    the bus but the scan, with an OSError whose message carries the text
    "BH1750 not found on I2C bus".  OSError is the one error class of the
    driver; the missing device is marked by that text. *)
Theorem construct_device_not_found
    (b : I2C) (md mt : Z) (h : list event) (addrs : list Z) :
  scan b h = inr addrs ->
  ~ In _ADDR_LOW addrs -> ~ In _ADDR_HIGH addrs ->
  exists pre e,
    e = OSError (pre ++ "BH1750 not found on I2C bus")%string /\
    exn_class e = "OSError" /\
    construct b None md mt h = (inl e, h ++ [EScan]) /\
    writes (snd (construct b None md mt h)) = writes h.
Proof.
  intros Hs Hl Hh.
  assert (H : construct b None md mt h =
    (inl (OSError "I2C scan failed: BH1750 not found on I2C bus"), h ++ [EScan])).
  { unfold construct, __init__, _autodetect_addr, blank. py_unfold.
    rewrite Hs. py_unfold.
    rewrite (in_tuple_false _ _ Hl), (in_tuple_false _ _ Hh). reflexivity. }
  exists "I2C scan failed: ". eexists.
  split; [reflexivity | split; [reflexivity | split; [exact H | ]]].
  rewrite H. cbn [snd]. unfold writes. rewrite flat_map_app. cbn.
  apply app_nil_r.
Qed.

Lemma construct_device_not_found_witness :
  exists pre e,
    e = OSError (pre ++ "BH1750 not found on I2C bus")%string /\
    exn_class e = "OSError" /\
    construct (mock_i2c [0x48; 0x76] (x00, x00)%byte) None
              CONTINUOUS_HIGH_RESOLUTION _MTREG_DEFAULT [] = (inl e, [EScan]) /\
    writes (snd (construct (mock_i2c [0x48; 0x76] (x00, x00)%byte) None
                   CONTINUOUS_HIGH_RESOLUTION _MTREG_DEFAULT [])) = [].
Proof.
  apply (construct_device_not_found (mock_i2c [0x48; 0x76] (x00, x00)%byte)
           CONTINUOUS_HIGH_RESOLUTION _MTREG_DEFAULT [] [0x48; 0x76]).
  - reflexivity.
  - unfold _ADDR_LOW. simpl. lia.
  - unfold _ADDR_HIGH. simpl. lia.
Defined.

(** ** Settings after a call *)

Lemma preserved_value {A X} (f : BH1750 -> X) (c : M A) :
  (forall x, preserves (fun o => f o = x) c) ->
  forall s, f (self (snd (c s))) = f (self s).
Proof. intros H s. now apply (H (f (self s)) s). Qed.

Lemma set_mode_failure_stores (m : Z) (force : bool) (s : state) (msg : string) :
  fst (set_mode m force s) = inl (OSError msg) ->
  mode (self (snd (set_mode m force s))) = Some m.
Proof.
  intros Hf. destruct (mode (self s)) as [cur | ] eqn:Hc.
  - rewrite (set_mode_stores m force s cur Hc).
    destruct ((cur =? m) && negb force) eqn:Hcond; [ | reflexivity].
    exfalso. revert Hf. unfold set_mode.
    rewrite (bind_inr _ _ s cur s) by (unfold getattr; now rewrite Hc).
    rewrite Hcond. discriminate.
  - exfalso. revert Hf. unfold set_mode.
    rewrite (bind_inl _ _ s (AttributeError "mode") s)
      by (unfold getattr; now rewrite Hc).
    discriminate.
Qed.

(** C3 (as stated, refuted): a call that fails with a transport error does
    change the stored setting.  On a controller holding register 69 and mode
    0x10 whose device stops acknowledging, [set_mtreg 120] raises and leaves
    120 stored, and [set_mode 0x20] raises and leaves 0x20 stored. *)
Lemma failed_write_changes_setting :
  let s := controller (nack_i2c [_ADDR_LOW]) _ADDR_LOW
             CONTINUOUS_HIGH_RESOLUTION _MTREG_DEFAULT in
  (fst (set_mtreg 120 s) =
     inl (OSError "BH1750 I2C write failed: [Errno 19] ENODEV") /\
   mtreg (self s) = Some 69 /\
   mtreg (self (snd (set_mtreg 120 s))) = Some 120) /\
  (fst (set_mode ONE_TIME_HIGH_RESOLUTION false s) =
     inl (OSError "BH1750 I2C write failed: [Errno 19] ENODEV") /\
   mode (self s) = Some 0x10 /\
   mode (self (snd (set_mode ONE_TIME_HIGH_RESOLUTION false s))) = Some 0x20).
Proof. repeat split. Qed.

(** C3 (amended): a call that fails with a transport error leaves the
    address and the setting it does not write unchanged, but the setting it
    writes is stored before the transmission: after a failed [set_mtreg v]
    the stored register is the clamped [v], after a failed [set_mode m] the
    stored mode is [m]; every other failed call leaves register and mode as
    they were. *)
Theorem failed_call_settings (o : op) (s : state) (msg : string) :
  fst (run o s) = Some (OSError msg) ->
  let s' := snd (run o s) in
  addr (self s') = addr (self s) /\
  mtreg (self s') =
    match o with SetMtreg v => Some (clamp_mtreg v) | _ => mtreg (self s) end /\
  mode (self s') =
    match o with SetMode m _ => Some m | _ => mode (self s) end.
Proof.
  intros Hf. cbv zeta.
  destruct o as [ | | | v | m force | | ]; cbn [run outcome fst snd] in *.
  - repeat split; apply preserved_value; intros x; apply preserves_power_on;
      split; auto.
  - repeat split; apply preserved_value; intros x; apply preserves_power_down;
      split; auto.
  - repeat split; apply preserved_value; intros x; apply preserves_reset;
      split; auto.
  - split; [ | split].
    + apply preserved_value. intros x.
      apply preserves_set_mtreg_writes; [split | ]; auto.
    + apply set_mtreg_stores.
    + apply preserved_value. intros x.
      apply preserves_set_mtreg_writes; [split | ]; auto.
  - split; [ | split].
    + apply preserved_value. intros x.
      apply preserves_set_mode; [split | intros ? ?]; auto.
    + apply preserved_value. intros x.
      apply preserves_set_mode; [split | intros ? ?]; auto.
    + apply set_mode_failure_stores with (msg := msg).
      destruct (fst (set_mode m force s)); [congruence | discriminate].
  - repeat split; apply preserved_value; intros x; apply preserves_raw;
      split; auto.
  - split; [ | split].
    + apply preserved_value. intros x.
      apply preserves_lux; [split | intros ? ?]; auto.
    + apply preserved_value. intros x.
      apply preserves_lux; [split | intros ? ?]; auto.
    + apply lux_keeps_mode.
Qed.

Lemma failed_call_settings_witness :
  let s := controller (nack_i2c [_ADDR_LOW]) _ADDR_LOW
             CONTINUOUS_HIGH_RESOLUTION _MTREG_DEFAULT in
  mtreg (self (snd (run (SetMtreg 300) s))) = Some 254.
Proof.
  intros s.
  apply (failed_call_settings (SetMtreg 300) s "BH1750 I2C write failed: [Errno 19] ENODEV").
  reflexivity.
Defined.

(** ** Transmissions *)

(** C9: on a controller with a stored mode, [set_mode m] without force and
    with [m] the stored mode is a no-op that transmits nothing; with force,
    or with [m] different from the stored mode, it hands exactly one byte to
    the bus, the value of [m], and stores [m]. *)
Theorem set_mode_transmission (s : state) (a cur m : Z) (force : bool) :
  ready s a -> mode (self s) = Some cur -> 0 <= m < 256 ->
  let s' := snd (set_mode m force s) in
  (m = cur -> force = false ->
   set_mode m force s = (inr tt, s) /\ writes (log s') = writes (log s)) /\
  (force = true \/ m <> cur ->
   (exists ack, log s' = log s ++ [EWrite a m ack]) /\
   writes (log s') = writes (log s) ++ [m] /\
   mode (self s') = Some m).
Proof.
  intros Hr Hc Hm. cbv zeta. rewrite (set_mode_run s a cur m force Hr Hc Hm).
  split.
  - intros -> ->. rewrite Z.eqb_refl. simpl. split; reflexivity.
  - intros Hcase.
    assert (Hcond : (cur =? m) && negb force = false).
    { destruct Hcase as [-> | Hne]; [apply andb_false_r | ].
      apply andb_false_iff. left. apply Z.eqb_neq. congruence. }
    rewrite Hcond.
    destruct (writeto (i2c (self s)) (log s) a m); cbn [snd log self mode with_write_buf with_mode];
      (split; [eexists; reflexivity | split; [ | reflexivity]]);
      unfold writes; rewrite flat_map_app; reflexivity.
Qed.

Lemma set_mode_transmission_witness :
  let s := controller (mock_i2c [_ADDR_LOW] (x00, x00)%byte) _ADDR_LOW
             CONTINUOUS_HIGH_RESOLUTION _MTREG_DEFAULT in
  writes (log (snd (set_mode CONTINUOUS_HIGH_RESOLUTION false s))) = [] /\
  writes (log (snd (set_mode CONTINUOUS_HIGH_RESOLUTION true s))) = [0x10] /\
  writes (log (snd (set_mode ONE_TIME_LOW_RESOLUTION false s))) = [0x23].
Proof.
  intros s.
  assert (Hr : ready s _ADDR_LOW) by (repeat split; discriminate).
  assert (Hc : mode (self s) = Some CONTINUOUS_HIGH_RESOLUTION) by reflexivity.
  split; [ | split].
  - apply (set_mode_transmission s _ADDR_LOW CONTINUOUS_HIGH_RESOLUTION
             CONTINUOUS_HIGH_RESOLUTION false Hr Hc); [ | reflexivity..].
    unfold CONTINUOUS_HIGH_RESOLUTION. lia.
  - apply (set_mode_transmission s _ADDR_LOW CONTINUOUS_HIGH_RESOLUTION
             CONTINUOUS_HIGH_RESOLUTION true Hr Hc); [ | now left].
    unfold CONTINUOUS_HIGH_RESOLUTION. lia.
  - apply (set_mode_transmission s _ADDR_LOW CONTINUOUS_HIGH_RESOLUTION
             ONE_TIME_LOW_RESOLUTION false Hr Hc); [ | right; discriminate].
    unfold ONE_TIME_LOW_RESOLUTION. lia.
Defined.

(** C6: for every integer [v], on any controller whose device takes the
    first byte, [set_mtreg v] stores [v] clamped into [31, 254] and hands
    exactly two bytes to the bus whatever was stored before: first
    [0x40 | (c >> 5)], then [0x60 | (c & 0x1F)] for the clamped value [c];
    for 120 these are 0x43 and 0x78. *)
Theorem set_mtreg_transmission (s : state) (a v : Z) :
  ready s a ->
  let c := Z.max 31 (Z.min v 254) in
  let hi := Z.lor 0x40 (Z.shiftr c 5) in
  let lo := Z.lor 0x60 (Z.land c 0x1F) in
  let s' := snd (set_mtreg v s) in
  writeto (i2c (self s)) (log s) a hi = None ->
  mtreg (self s') = Some c /\
  31 <= c <= 254 /\ (31 <= v <= 254 -> c = v) /\
  (exists ack, log s' = log s ++ [EWrite a hi true; EWrite a lo ack]) /\
  writes (log s') = writes (log s) ++ [hi; lo] /\
  (v = 120 -> hi = 0x43 /\ lo = 0x78).
Proof.
  intros Hr c hi lo s' Hack.
  assert (Hs : mtreg (self s') = Some c) by apply set_mtreg_stores.
  split; [exact Hs | ]. split; [unfold c; lia | ]. split; [unfold c; lia | ].
  assert (Hlog : exists ack, log s' = log s ++ [EWrite a hi true; EWrite a lo ack]).
  { unfold s'. rewrite (set_mtreg_run s a v Hr). cbv zeta.
    change (high_byte (clamp_mtreg v)) with hi.
    change (low_byte (clamp_mtreg v)) with lo.
    rewrite Hack.
    destruct (writeto (i2c (self s)) _ a lo); cbn [snd log];
      rewrite <- app_assoc; eexists; reflexivity. }
  split; [exact Hlog | ]. split.
  - destruct Hlog as [ack ->]. unfold writes. rewrite flat_map_app. reflexivity.
  - intros ->. split; reflexivity.
Qed.

Lemma set_mtreg_transmission_witness :
  let s := controller (mock_i2c [_ADDR_LOW] (x00, x00)%byte) _ADDR_LOW
             CONTINUOUS_HIGH_RESOLUTION _MTREG_DEFAULT in
  mtreg (self (snd (set_mtreg 120 s))) = Some 120 /\
  writes (log (snd (set_mtreg 120 s))) = [0x43; 0x78].
Proof.
  intros s.
  assert (Hr : ready s _ADDR_LOW) by (repeat split; discriminate).
  split; apply (set_mtreg_transmission s _ADDR_LOW 120 Hr); reflexivity.
Defined.

(** ** Reading *)

Lemma ready_after (s s' : state) (a : Z) :
  ready s a -> addr (self s') = addr (self s) ->
  (_write_buf (self s') <> None) -> (_read_buf (self s') <> None) ->
  ready s' a.
Proof. intros (Ha & _ & _) He Hw Hr. repeat split; congruence. Qed.

(** A mode that does not fit a byte is stored and then refused by the write
    buffer, before anything reaches the bus. *)
Lemma set_mode_bad_byte (s : state) (a cur m : Z) :
  ready s a -> mode (self s) = Some cur -> ~ 0 <= m < 256 ->
  set_mode m true s =
    (inl (ValueError "byte must be in range(0, 256)"),
     {| self := with_mode m (self s); log := log s |}).
Proof.
  destruct s as [[b a0 wb rb t md] l]. unfold ready. simpl.
  intros (-> & Hw & _) -> Hr.
  destruct wb as [wb | ]; [ | congruence].
  unfold set_mode, _write_cmd, setitem_write_buf. py_unfold.
  rewrite andb_false_r.
  assert (Hb : (0 <=? m) && (m <? 256) = false).
  { apply andb_false_iff.
    destruct (Z.leb_spec 0 m); [right; apply Z.ltb_ge; lia | now left]. }
  rewrite Hb. reflexivity.
Qed.

(** One [lux] call in a one-shot mode: the mode byte first, and only when
    the device took it the wait and the read; the settings stay. *)
Lemma lux_one_shot_call (s : state) (a m t : Z) :
  ready s a -> mode (self s) = Some m -> mtreg (self s) = Some t ->
  _MTREG_MIN <= t <= _MTREG_MAX ->
  Z.land m 0xF0 = 0x20 -> 0 <= m < 256 ->
  let s1 := snd (lux s) in
  (exists ack ok,
      log s1 = log s ++ EWrite a m ack ::
                 (if ack then [ESleep (wait_floor m t); ERead a ok] else [])) /\
  ready s1 a /\ mode (self s1) = Some m /\ mtreg (self s1) = Some t.
Proof.
  intros Hr Hm Ht Hrange Hone Hbyte. cbv zeta.
  rewrite (lux_run s m Hm), Hone, Z.eqb_refl.
  rewrite (set_mode_run s a m m true Hr Hm Hbyte), andb_false_r.
  destruct (writeto (i2c (self s)) (log s) a m) as [msg | ].
  - cbn [snd log self]. split; [exists false, false; reflexivity | ].
    split; [ | split; [reflexivity | exact Ht]].
    apply (ready_after s); [exact Hr | reflexivity | discriminate | apply Hr].
  - erewrite measure_run;
      [ | apply (ready_after s); [exact Hr | reflexivity | discriminate | apply Hr]
        | reflexivity | exact Ht | exact Hrange ].
    cbv zeta. cbn [log self i2c with_write_buf with_mode].
    destruct (readfrom_into _ _ a) as [msg | d]; cbn [snd log self].
    + split; [exists true, false; now rewrite <- !app_assoc | ].
      match goal with
      | |- context [failed_read ?o ?h ?x] =>
          destruct (failed_read_frame o h x) as (_ & Ha' & Hw' & Ht' & Hm' & Hb')
      end.
      rewrite Ht', Hm'. split; [ | split; [reflexivity | exact Ht]].
      apply (ready_after s); cbn [self];
        [exact Hr | exact Ha' | rewrite Hw'; discriminate | apply Hb', Hr].
    + split; [exists true, true; now rewrite <- !app_assoc | ].
      split; [ | split; [reflexivity | exact Ht]].
      apply (ready_after s); [exact Hr | reflexivity | discriminate | discriminate].
Qed.

(** C8: while the stored mode is a one-shot mode ([mode & 0xF0 == 0x20]),
    every [lux] call starts by handing the mode byte to the bus again, so
    whatever it reads it reads after that byte; this holds for each of two
    consecutive calls, the second finding nothing remembered from the
    first. *)
Theorem one_shot_retriggers_each_call (s : state) (a m t : Z) :
  ready s a -> mode (self s) = Some m -> mtreg (self s) = Some t ->
  _MTREG_MIN <= t <= _MTREG_MAX ->
  Z.land m 0xF0 = 0x20 -> 0 <= m < 256 ->
  let s1 := snd (lux s) in
  let s2 := snd (lux s1) in
  exists ack1 ok1 ack2 ok2,
    log s1 = log s ++ EWrite a m ack1 ::
               (if ack1 then [ESleep (wait_floor m t); ERead a ok1] else []) /\
    log s2 = log s1 ++ EWrite a m ack2 ::
               (if ack2 then [ESleep (wait_floor m t); ERead a ok2] else []).
Proof.
  intros Hr Hm Ht Hrange Hone Hbyte s1 s2.
  destruct (lux_one_shot_call s a m t Hr Hm Ht Hrange Hone Hbyte)
    as ((ack1 & ok1 & H1) & Hr1 & Hm1 & Ht1).
  destruct (lux_one_shot_call s1 a m t Hr1 Hm1 Ht1 Hrange Hone Hbyte)
    as ((ack2 & ok2 & H2) & _).
  exists ack1, ok1, ack2, ok2. split; assumption.
Qed.

Lemma one_shot_retriggers_each_call_witness :
  let s := controller (mock_i2c [_ADDR_LOW] (x00, x00)%byte) _ADDR_LOW
             ONE_TIME_HIGH_RESOLUTION _MTREG_DEFAULT in
  exists ack1 ok1 ack2 ok2,
    log (snd (lux s)) =
      EWrite 0x23 0x20 ack1 :: (if ack1 then [ESleep 180; ERead 0x23 ok1] else []) /\
    log (snd (lux (snd (lux s)))) =
      log (snd (lux s)) ++
      EWrite 0x23 0x20 ack2 :: (if ack2 then [ESleep 180; ERead 0x23 ok2] else []).
Proof.
  intros s.
  apply (one_shot_retriggers_each_call s _ADDR_LOW ONE_TIME_HIGH_RESOLUTION
           _MTREG_DEFAULT).
  - repeat split; discriminate.
  - reflexivity.
  - reflexivity.
  - unfold _MTREG_MIN, _MTREG_MAX, _MTREG_DEFAULT. lia.
  - reflexivity.
  - unfold ONE_TIME_HIGH_RESOLUTION. lia.
Defined.



(** C5: for every 16-bit reading and every stored register value, [lux]
    returns [(raw / 1.2) * (69 / t)] in binary64 arithmetic, divided by 2
    in the two high-resolution-2 modes; the reading 0xD554 at register 69 in
    continuous high-resolution mode gives a value within 0.1 of 45510. *)
Theorem lux_conversion (s : state) (a m t : Z) (d : byte * byte) :
  ready s a -> mode (self s) = Some m -> mtreg (self s) = Some t ->
  31 <= t <= 254 ->
  reads (i2c (self s)) a d ->
  (Z.land m 0xF0 = 0x20 -> 0 <= m < 256 /\ acks (i2c (self s)) a) ->
  let raw_val := byte_val (fst d) * 256 + byte_val (snd d) in
  let lx := Float.mul (Float.div (Float.of_int raw_val) Float.lit_1_2)
                      (Float.div (Float.of_int 69) (Float.of_int t)) in
  fst (lux s) =
    inr (if (m =? 0x11) || (m =? 0x21) then Float.div lx Float.lit_2_0 else lx) /\
  0 <= raw_val < 65536 /\
  (raw_val = 0xD554 -> t = 69 -> m = 0x10 ->
   forall v, fst (lux s) = inr v -> Float.within_tenths v 455100 1 = true).
Proof.
  intros Hr Hm Ht Hrange Hread Hone raw_val lx.
  assert (Hmeasure : forall s0, ready s0 a -> mode (self s0) = Some m ->
            mtreg (self s0) = Some t -> i2c (self s0) = i2c (self s) ->
            fst (measure s0) = inr (lux_formula (raw16 d) t m)).
  { intros s0 Hr0 Hm0 Ht0 Hb. rewrite (measure_run s0 a m t Hr0 Hm0 Ht0 Hrange).
    cbv zeta. rewrite Hb, Hread. reflexivity. }
  assert (Hv : fst (lux s) = inr (lux_formula (raw16 d) t m)).
  { rewrite (lux_run s m Hm).
    destruct (Z.eqb_spec (Z.land m 240) 32) as [H1 | H1]; [ | now apply Hmeasure].
    destruct (Hone H1) as [Hbyte Hack].
    rewrite (set_mode_run s a m m true Hr Hm Hbyte), andb_false_r, Hack.
    apply Hmeasure; try reflexivity; [ | exact Ht].
    apply (ready_after s); [exact Hr | reflexivity | discriminate | apply Hr]. }
  split; [exact Hv | ]. split; [apply (raw16_range d) | ].
  intros Hraw -> -> v Hlux. rewrite Hv in Hlux. injection Hlux as <-.
  change (raw16 d) with raw_val. rewrite Hraw. vm_compute. reflexivity.
Qed.

Lemma lux_conversion_witness :
  let s := controller (mock_i2c [_ADDR_LOW] (xd5, x54)%byte) _ADDR_LOW
             CONTINUOUS_HIGH_RESOLUTION _MTREG_DEFAULT in
  fst (lux s) = inr (Float.of_int 45510).
Proof.
  intros s.
  refine (eq_trans (proj1 (lux_conversion s _ADDR_LOW CONTINUOUS_HIGH_RESOLUTION
                             _MTREG_DEFAULT (xd5, x54)%byte _ _ _ _ _ _)) _).
  - repeat split; discriminate.
  - reflexivity.
  - reflexivity.
  - unfold _MTREG_DEFAULT. lia.
  - intros h. reflexivity.
  - discriminate.
  - vm_compute. reflexivity.
Defined.

(** ** The register invariant *)






(** ** The remaining cases of the test suite, on a configured controller *)

Example lux_high_res_2_halves :
  fst (lux (controller (mock_i2c [_ADDR_LOW] (xd5, x54)%byte) _ADDR_LOW
              CONTINUOUS_HIGH_RESOLUTION_2 _MTREG_DEFAULT))
  = inr (Float.of_int 22755).
Proof. vm_compute. reflexivity. Qed.

Example lux_scales_with_mtreg :
  fst (lux (controller (mock_i2c [_ADDR_LOW] (xd5, x54)%byte) _ADDR_LOW
              CONTINUOUS_HIGH_RESOLUTION 138))
  = inr (Float.of_int 22755).
Proof. vm_compute. reflexivity. Qed.

Example set_mtreg_clamps_low_and_high :
  let s := controller (mock_i2c [_ADDR_LOW] (x00, x00)%byte) _ADDR_LOW
             CONTINUOUS_HIGH_RESOLUTION _MTREG_DEFAULT in
  mtreg (self (snd (set_mtreg 10 s))) = Some _MTREG_MIN /\
  mtreg (self (snd (set_mtreg 300 s))) = Some _MTREG_MAX.
Proof. split; reflexivity. Qed.

Example power_down_sends_its_command :
  log (snd (power_down (controller (mock_i2c [_ADDR_LOW] (x00, x00)%byte)
                          _ADDR_LOW CONTINUOUS_HIGH_RESOLUTION _MTREG_DEFAULT)))
  = [EWrite _ADDR_LOW _POWER_DOWN true].
Proof. reflexivity. Qed.

(** The literal [1.2] is the correctly rounded quotient 12/10. *)
Example lit_1_2_is_rounded :
  Float.div (Float.of_int 12) (Float.of_int 10) = Float.lit_1_2 /\
  Float.of_int 2 = Float.lit_2_0.
Proof. split; vm_compute; reflexivity. Qed.

(** ** Where the traffic goes *)

Lemma talks_nothing {A} (a : Z) (c : M A) :
  (forall s, snd (c s) = s) -> talks_to a c.
Proof.
  intros H s Ha. rewrite H. split; [exact Ha | ].
  exists []. split; [now rewrite app_nil_r | constructor].
Qed.

Lemma talks_emit (a : Z) (e : event) : traffic_to a e -> talks_to a (emit e).
Proof.
  intros He s Ha. split; [exact Ha | ].
  exists [e]. split; [reflexivity | now constructor].
Qed.

Lemma talks_setattr (a : Z) (upd : BH1750 -> BH1750) :
  (forall o, addr (upd o) = addr o) -> talks_to a (setattr upd).
Proof.
  intros Hu s Ha. cbn [setattr snd self log]. rewrite Hu. split; [exact Ha | ].
  exists []. split; [now rewrite app_nil_r | constructor].
Qed.

Lemma talks_bind {A B} (a : Z) (c : M A) (k : A -> M B) :
  talks_to a c -> (forall x, talks_to a (k x)) -> talks_to a (bind c k).
Proof.
  intros Hc Hk s Ha. unfold bind. destruct (Hc s Ha) as (Ha1 & l1 & Hl1 & Hf1).
  destruct (c s) as [[e | x] s1]; cbn [snd] in *.
  - split; [exact Ha1 | ]. now exists l1.
  - destruct (Hk x s1 Ha1) as (Ha2 & l2 & Hl2 & Hf2).
    split; [exact Ha2 | ]. exists (l1 ++ l2).
    split; [now rewrite Hl2, Hl1, app_assoc | now apply Forall_app].
Qed.

Lemma talks_try {A} (a : Z) (c : M A) (h : string -> M A) :
  talks_to a c -> (forall msg, talks_to a (h msg)) -> talks_to a (try_OSError c h).
Proof.
  intros Hc Hh s Ha. unfold try_OSError. destruct (Hc s Ha) as (Ha1 & l1 & Hl1 & Hf1).
  destruct (c s) as [[[msg | | | |] | x] s1]; cbn [snd] in *;
    try (split; [exact Ha1 | now exists l1]).
  destruct (Hh msg s1 Ha1) as (Ha2 & l2 & Hl2 & Hf2).
  split; [exact Ha2 | ]. exists (l1 ++ l2).
  split; [now rewrite Hl2, Hl1, app_assoc | now apply Forall_app].
Qed.

Lemma talks_getattr {A} (a : Z) (n : string) (f : BH1750 -> option A) :
  talks_to a (getattr n f).
Proof.
  apply talks_nothing. intros s. unfold getattr. now destruct (f (self s)).
Qed.

Lemma talks_write_cmd (a cmd : Z) : talks_to a (_write_cmd cmd).
Proof.
  intros [[b a0 wb rb t md] l]. cbn [self addr]. intros ->.
  unfold _write_cmd, setitem_write_buf, i2c_writeto. py_unfold.
  destruct wb as [wb | ].
  2:{ split; [reflexivity | ]. exists []. split; [now rewrite app_nil_r | constructor]. }
  destruct ((0 <=? cmd) && (cmd <? 256)).
  2:{ split; [reflexivity | ]. exists []. split; [now rewrite app_nil_r | constructor]. }
  destruct (writeto b l a cmd); (split; [reflexivity | ]);
    eexists [_]; (split; [reflexivity | ]); repeat constructor.
Qed.

Lemma talks_raw (a : Z) : talks_to a raw.
Proof.
  intros [[b a0 wb rb t md] l]. cbn [self addr]. intros ->.
  unfold raw. py_unfold.
  destruct rb as [rb | ].
  2:{ split; [reflexivity | ]. exists []. split; [now rewrite app_nil_r | constructor]. }
  destruct (readfrom_into b l a); (split; [reflexivity | ]);
    eexists [_]; (split; [reflexivity | ]); repeat constructor.
Qed.

Lemma talks_sleep (a ms : Z) : talks_to a (sleep_ms ms).
Proof. now apply talks_emit. Qed.

Lemma talks_power_on (a : Z) : talks_to a power_on.
Proof.
  apply talks_bind; [apply talks_write_cmd | intros; apply talks_sleep].
Qed.

Lemma talks_reset (a : Z) : talks_to a reset.
Proof.
  apply talks_bind; [apply talks_write_cmd | intros; apply talks_sleep].
Qed.

Lemma talks_set_mtreg (a v : Z) : talks_to a (set_mtreg v).
Proof.
  unfold set_mtreg.
  apply talks_bind; [now apply talks_setattr | intros _].
  apply talks_bind; [apply talks_getattr | intros c].
  apply talks_bind; [apply talks_getattr | intros c'].
  apply talks_bind; intros; apply talks_write_cmd.
Qed.

Lemma talks_set_mode (a m : Z) (force : bool) : talks_to a (set_mode m force).
Proof.
  unfold set_mode.
  apply talks_bind; [apply talks_getattr | intros cur].
  destruct ((cur =? m) && negb force); [now apply talks_nothing | ].
  apply talks_bind; [now apply talks_setattr | intros _].
  apply talks_bind; [apply talks_getattr | intros; apply talks_write_cmd].
Qed.

Lemma talks_measure (a : Z) : talks_to a measure.
Proof.
  unfold measure.
  apply talks_bind; [apply talks_getattr | intros m1]. cbv zeta.
  apply talks_bind; [apply talks_getattr | intros t].
  apply talks_bind;
    [unfold truediv; destruct (_MTREG_DEFAULT =? 0); now apply talks_nothing | intros r].
  apply talks_bind; [now apply talks_nothing | intros w].
  apply talks_bind; [apply talks_sleep | intros _].
  apply talks_bind; [apply talks_raw | intros raw_val]. cbv zeta.
  apply talks_bind; [apply talks_getattr | intros t'].
  apply talks_bind;
    [unfold truediv; destruct (t' =? 0); now apply talks_nothing | intros q].
  apply talks_bind; [apply talks_getattr | intros m2].
  destruct (in_tuple m2 high_res_2_modes); now apply talks_nothing.
Qed.

Lemma talks_lux (a : Z) : talks_to a lux.
Proof.
  unfold lux.
  apply talks_bind; [apply talks_getattr | intros m0]. cbv zeta.
  apply talks_bind; [ | intros _; apply talks_measure].
  destruct (Z.land m0 240 =? 32); [ | now apply talks_nothing].
  apply talks_bind; [apply talks_getattr | intros; apply talks_set_mode].
Qed.

Lemma run_talks (o : op) (s : state) (a : Z) :
  addr (self s) = Some a ->
  addr (self (snd (run o s))) = Some a /\
  exists l, log (snd (run o s)) = log s ++ l /\ Forall (traffic_to a) l.
Proof.
  destruct o as [ | | | v | m force | | ]; cbn [run outcome snd].
  - apply talks_power_on.
  - apply talks_write_cmd.
  - apply talks_reset.
  - apply talks_set_mtreg.
  - apply talks_set_mode.
  - apply talks_raw.
  - apply talks_lux.
Qed.

(** X1: whatever sequence of operations a caller runs, returning or
    raising, the stored device address stays the same, earlier traffic is
    never rewritten, and everything added is a sleep or a transfer with that
    address; the bus is never scanned again. *)
Theorem operations_talk_to_stored_address (os : list op) (s : state) (a : Z) :
  addr (self s) = Some a ->
  addr (self (run_all os s)) = Some a /\
  exists l, log (run_all os s) = log s ++ l /\ Forall (traffic_to a) l.
Proof.
  revert s. induction os as [ | o os IH]; intros s Ha.
  - split; [exact Ha | ]. exists []. split; [now rewrite app_nil_r | constructor].
  - cbn [run_all fold_left].
    destruct (run_talks o s a Ha) as (Ha1 & l1 & Hl1 & Hf1).
    destruct (IH _ Ha1) as (Ha2 & l2 & Hl2 & Hf2).
    split; [exact Ha2 | ]. exists (l1 ++ l2).
    split; [ | now apply Forall_app].
    unfold run_all in Hl2. now rewrite Hl2, Hl1, app_assoc.
Qed.

Lemma operations_talk_to_stored_address_witness :
  let s := controller (mock_i2c [_ADDR_LOW; _ADDR_HIGH] (x01, x02)%byte) _ADDR_HIGH
             ONE_TIME_LOW_RESOLUTION 100 in
  addr (self (run_all [Lux; SetMtreg 40; Reset; Raw; SetMode 0x10 false] s))
  = Some _ADDR_HIGH.
Proof.
  intros s.
  apply (operations_talk_to_stored_address
           [Lux; SetMtreg 40; Reset; Raw; SetMode 0x10 false] s _ADDR_HIGH).
  reflexivity.
Defined.

(** X2: the stored mode is changed by [set_mode] only; every other
    operation, [lux] with its one-shot re-issue included, leaves it as it
    was, whether it returns or raises. *)
Theorem only_set_mode_changes_mode (o : op) (s : state) :
  (forall m force, o <> SetMode m force) ->
  mode (self (snd (run o s))) = mode (self s).
Proof.
  intros Hne. destruct o as [ | | | v | m force | | ]; cbn [run outcome snd].
  - apply preserved_value. intros x. apply preserves_power_on, mode_is_buffer_blind.
  - apply preserved_value. intros x. apply preserves_power_down, mode_is_buffer_blind.
  - apply preserved_value. intros x. apply preserves_reset, mode_is_buffer_blind.
  - apply preserved_value. intros x.
    apply preserves_set_mtreg_writes; [apply mode_is_buffer_blind | auto].
  - now destruct (Hne m force).
  - apply preserved_value. intros x. apply preserves_raw, mode_is_buffer_blind.
  - apply lux_keeps_mode.
Qed.

Lemma only_set_mode_changes_mode_witness :
  let s := controller (nack_i2c [_ADDR_LOW]) _ADDR_LOW
             ONE_TIME_HIGH_RESOLUTION _MTREG_DEFAULT in
  mode (self (snd (run Lux s))) = Some ONE_TIME_HIGH_RESOLUTION.
Proof.
  intros s. apply (only_set_mode_changes_mode Lux s). discriminate.
Defined.

(** ** Address selection and the start-up sequence *)

Lemma existsb_exists_Z (x : Z) (l : list Z) : In x l -> in_tuple x l = true.
Proof.
  intros H. unfold in_tuple. apply existsb_exists.
  exists x. split; [exact H | apply Z.eqb_refl].
Qed.

Lemma in_tuple_false_iff (x : Z) (l : list Z) : in_tuple x l = false -> ~ In x l.
Proof.
  intros H Hin. apply existsb_exists_Z in Hin. congruence.
Qed.

(** X3: autodetection settles on the low address whenever the scan lists
    it, also when the high address is listed as well, and on the high
    address only when the low one is absent; it does nothing but the one
    scan and leaves the object untouched. *)
Theorem autodetect_prefers_low (s : state) (addrs : list Z) :
  scan (i2c (self s)) (log s) = inr addrs ->
  In _ADDR_LOW addrs \/ In _ADDR_HIGH addrs ->
  _autodetect_addr s =
    (inr (if in_tuple _ADDR_LOW addrs then _ADDR_LOW else _ADDR_HIGH),
     {| self := self s; log := log s ++ [EScan] |}) /\
  (In _ADDR_LOW addrs -> fst (_autodetect_addr s) = inr 0x23) /\
  (~ In _ADDR_LOW addrs -> fst (_autodetect_addr s) = inr 0x5C).
Proof.
  intros Hs Hin.
  assert (H : _autodetect_addr s =
    (inr (if in_tuple _ADDR_LOW addrs then _ADDR_LOW else _ADDR_HIGH),
     {| self := self s; log := log s ++ [EScan] |})).
  { destruct s as [[b a0 wb rb t md] l]. cbn [self log i2c] in Hs.
    unfold _autodetect_addr. py_unfold. rewrite Hs. py_unfold.
    destruct (in_tuple _ADDR_LOW addrs) eqn:Hl; [reflexivity | ].
    destruct Hin as [Hin | Hin].
    - apply in_tuple_false_iff in Hl. contradiction.
    - apply existsb_exists_Z in Hin. now rewrite Hin. }
  rewrite H. split; [reflexivity | ]. cbn [fst]. split.
  - intros Hl. apply existsb_exists_Z in Hl. now rewrite Hl.
  - intros Hl. now rewrite (in_tuple_false _ _ Hl).
Qed.

Lemma autodetect_prefers_low_witness :
  fst (_autodetect_addr
         {| self := blank (mock_i2c [0x5C; 0x3C; 0x23] (x00, x00)%byte); log := [] |})
  = inr 0x23.
Proof.
  refine (proj1 (proj2 (autodetect_prefers_low
            {| self := blank (mock_i2c [0x5C; 0x3C; 0x23] (x00, x00)%byte); log := [] |}
            [0x5C; 0x3C; 0x23] _ _)) _).
  - reflexivity.
  - left. unfold _ADDR_LOW. simpl. auto.
  - unfold _ADDR_LOW. simpl. auto.
Defined.

(** X4: when the scan itself raises, autodetection re-raises it as
    OSError "I2C scan failed: <cause>", and construction without an
    address ends there: nothing is written to the bus. *)
Theorem scan_failure_aborts_construction
    (b : I2C) (md mt : Z) (h : list event) (msg : string) :
  scan b h = inl msg ->
  _autodetect_addr {| self := blank b; log := h |} =
    (inl (OSError ("I2C scan failed: " ++ msg)%string),
     {| self := blank b; log := h ++ [EScan] |}) /\
  construct b None md mt h =
    (inl (OSError ("I2C scan failed: " ++ msg)%string), h ++ [EScan]) /\
  writes (snd (construct b None md mt h)) = writes h.
Proof.
  intros Hs.
  assert (H : construct b None md mt h =
    (inl (OSError ("I2C scan failed: " ++ msg)%string), h ++ [EScan])).
  { unfold construct, __init__, _autodetect_addr, blank. py_unfold.
    rewrite Hs. reflexivity. }
  split; [ | split; [exact H | ]].
  - unfold _autodetect_addr, blank. py_unfold. rewrite Hs. reflexivity.
  - rewrite H. cbn [snd]. unfold writes. rewrite flat_map_app. cbn.
    now rewrite app_nil_r.
Qed.

Lemma scan_failure_aborts_construction_witness :
  construct (broken_scan_i2c "[Errno 110] ETIMEDOUT") None
            CONTINUOUS_HIGH_RESOLUTION _MTREG_DEFAULT [] =
    (inl (OSError "I2C scan failed: [Errno 110] ETIMEDOUT"), [EScan]).
Proof.
  apply (scan_failure_aborts_construction (broken_scan_i2c "[Errno 110] ETIMEDOUT")
           CONTINUOUS_HIGH_RESOLUTION _MTREG_DEFAULT [] "[Errno 110] ETIMEDOUT").
  reflexivity.
Defined.

(** The constructor up to the point where it fails, on a device that takes
    every write. *)
Lemma init_with_address (b : I2C) (a md mt : Z) (o : BH1750) (l : list event) :
  acks b a -> i2c o = b ->
  (setattr (with_addr a) ;;;
   setattr (with_write_buf 0) ;;;
   setattr (with_read_buf (x00, x00)%byte) ;;;
   power_on ;;; reset ;;; set_mtreg mt ;;; set_mode md true)
    {| self := o; log := l |} =
  (inl (AttributeError "mode"),
   {| self := with_write_buf (low_byte (clamp_mtreg mt))
                (with_mtreg (clamp_mtreg mt)
                   (with_read_buf (x00, x00)%byte (with_addr a o)));
      log := l ++ [EWrite a _POWER_ON true; ESleep 5; EWrite a _RESET true; ESleep 5;
                   EWrite a (high_byte (clamp_mtreg mt)) true;
                   EWrite a (low_byte (clamp_mtreg mt)) true] |}) \/
  mode o <> None.
Proof.
  intros Hack Hb. destruct (mode o) as [m0 | ] eqn:Hm0; [right; discriminate | left].
  destruct o as [b0 a0 wb rb t m]. cbn [i2c mode] in Hb, Hm0. subst.
  destruct (command_bytes_fit _ (clamp_mtreg_range mt)) as [Hh Hl].
  unfold power_on, reset, set_mtreg, set_mode. py_unfold.
  erewrite (_write_cmd_run _ _POWER_ON a 0);
    [ | reflexivity | reflexivity | unfold _POWER_ON; lia].
  py_unfold. rewrite Hack.
  erewrite (_write_cmd_run _ _RESET a _POWER_ON);
    [ | reflexivity | reflexivity | unfold _RESET; lia].
  py_unfold. rewrite Hack.
  erewrite (_write_cmd_run _ (high_byte (clamp_mtreg mt)) a _RESET);
    [ | reflexivity | reflexivity | exact Hh].
  py_unfold. rewrite Hack.
  erewrite (_write_cmd_run _ (low_byte (clamp_mtreg mt)) a (high_byte (clamp_mtreg mt)));
    [ | reflexivity | reflexivity | exact Hl].
  py_unfold. rewrite Hack.
  rewrite <- !app_assoc. reflexivity.
Qed.

(** X5: with an explicit address the constructor does not scan and does not
    check the address against the two candidates: on a device that takes
    every write it sends power-on, waits 5 ms, sends reset, waits 5 ms and
    sends the two register bytes of the clamped [mtreg], all to the given
    address, before it raises. *)
Theorem explicit_address_startup (b : I2C) (a md mt : Z) (h : list event) :
  acks b a ->
  let c := Z.max 31 (Z.min mt 254) in
  construct b (Some a) md mt h =
    (inl (AttributeError "mode"),
     h ++ [EWrite a 0x01 true; ESleep 5; EWrite a 0x07 true; ESleep 5;
           EWrite a (Z.lor 0x40 (Z.shiftr c 5)) true;
           EWrite a (Z.lor 0x60 (Z.land c 0x1F)) true]).
Proof.
  intros Hack c. unfold construct, __init__.
  rewrite (bind_inr _ _ _ a {| self := blank b; log := h |} eq_refl).
  destruct (init_with_address b a md mt (blank b) h Hack eq_refl) as [-> | Hm];
    [reflexivity | now destruct Hm].
Qed.

Lemma explicit_address_startup_witness :
  construct (mock_i2c [] (x00, x00)%byte) (Some 0x50) ONE_TIME_LOW_RESOLUTION 300 [] =
    (inl (AttributeError "mode"),
     [EWrite 0x50 0x01 true; ESleep 5; EWrite 0x50 0x07 true; ESleep 5;
      EWrite 0x50 0x47 true; EWrite 0x50 0x7E true]).
Proof.
  apply (explicit_address_startup (mock_i2c [] (x00, x00)%byte) 0x50
           ONE_TIME_LOW_RESOLUTION 300 []).
  intros h byte. reflexivity.
Defined.

(** X6: when the device refuses the power-on command, construction raises
    the write error at once: no settle delay, no reset, no register bytes. *)
Theorem power_on_failure_aborts_construction
    (b : I2C) (a md mt : Z) (h : list event) (msg : string) :
  writeto b h a _POWER_ON = Some msg ->
  construct b (Some a) md mt h =
    (inl (OSError ("BH1750 I2C write failed: " ++ msg)%string),
     h ++ [EWrite a 0x01 false]).
Proof.
  intros Hw. unfold construct, __init__, power_on, blank. py_unfold.
  erewrite (_write_cmd_run _ _POWER_ON a 0);
    [ | reflexivity | reflexivity | unfold _POWER_ON; lia].
  py_unfold. rewrite Hw. reflexivity.
Qed.

Lemma power_on_failure_aborts_construction_witness :
  construct (nack_i2c [_ADDR_LOW]) (Some _ADDR_LOW)
            CONTINUOUS_HIGH_RESOLUTION _MTREG_DEFAULT [] =
    (inl (OSError "BH1750 I2C write failed: [Errno 19] ENODEV"),
     [EWrite 0x23 0x01 false]).
Proof.
  apply (power_on_failure_aborts_construction (nack_i2c [_ADDR_LOW]) _ADDR_LOW
           CONTINUOUS_HIGH_RESOLUTION _MTREG_DEFAULT [] "[Errno 19] ENODEV").
  reflexivity.
Defined.

(** ** Commands *)

(** X7: [_write_cmd] puts the command into the write buffer and hands it to
    the bus at the stored address, once; when the bus raises, the error is
    re-raised as OSError "BH1750 I2C write failed: <cause>", and the buffer
    keeps the refused command. *)
Theorem write_cmd_outcome (s : state) (a cmd : Z) :
  ready s a -> 0 <= cmd < 256 ->
  let r := _write_cmd cmd s in
  _write_buf (self (snd r)) = Some cmd /\
  writes (log (snd r)) = writes (log s) ++ [cmd] /\
  match writeto (i2c (self s)) (log s) a cmd with
  | None => fst r = inr tt /\ log (snd r) = log s ++ [EWrite a cmd true]
  | Some msg =>
      fst r = inl (OSError ("BH1750 I2C write failed: " ++ msg)%string) /\
      log (snd r) = log s ++ [EWrite a cmd false]
  end.
Proof.
  intros (Ha & Hw & _) Hc. cbv zeta.
  destruct (_write_buf (self s)) as [wb | ] eqn:Hwb; [ | congruence].
  rewrite (_write_cmd_run s cmd a wb Ha Hwb Hc).
  destruct (writeto (i2c (self s)) (log s) a cmd); cbn [fst snd self log _write_buf with_write_buf];
    (split; [reflexivity | split; [ | split; reflexivity]]);
    unfold writes; rewrite flat_map_app; reflexivity.
Qed.

Lemma write_cmd_outcome_witness :
  let s := controller (nack_i2c [_ADDR_LOW]) _ADDR_LOW
             CONTINUOUS_HIGH_RESOLUTION _MTREG_DEFAULT in
  _write_buf (self (snd (_write_cmd _RESET s))) = Some 0x07.
Proof.
  intros s. apply (write_cmd_outcome s _ADDR_LOW _RESET).
  - repeat split; discriminate.
  - unfold _RESET. lia.
Defined.

(** X8: [power_on] and [reset] send their command (0x01, 0x07) and wait the
    5 ms settle time only after the device took it; a refused command
    raises the write error without any wait. *)
Theorem power_on_and_reset_settle (s : state) (a : Z) :
  ready s a ->
  (match writeto (i2c (self s)) (log s) a 0x01 with
   | None =>
       fst (power_on s) = inr tt /\
       log (snd (power_on s)) = log s ++ [EWrite a 0x01 true; ESleep 5]
   | Some msg =>
       fst (power_on s) = inl (OSError ("BH1750 I2C write failed: " ++ msg)%string) /\
       log (snd (power_on s)) = log s ++ [EWrite a 0x01 false]
   end) /\
  (match writeto (i2c (self s)) (log s) a 0x07 with
   | None =>
       fst (reset s) = inr tt /\
       log (snd (reset s)) = log s ++ [EWrite a 0x07 true; ESleep 5]
   | Some msg =>
       fst (reset s) = inl (OSError ("BH1750 I2C write failed: " ++ msg)%string) /\
       log (snd (reset s)) = log s ++ [EWrite a 0x07 false]
   end).
Proof.
  intros (Ha & Hw & _).
  destruct (_write_buf (self s)) as [wb | ] eqn:Hwb; [ | congruence].
  split; [unfold power_on | unfold reset]; unfold bind, sleep_ms.
  - rewrite (_write_cmd_run s _POWER_ON a wb Ha Hwb) by (unfold _POWER_ON; lia).
    change _POWER_ON with 1.
    destruct (writeto (i2c (self s)) (log s) a 1); cbn [fst snd emit log self];
      [ | rewrite <- app_assoc]; split; reflexivity.
  - rewrite (_write_cmd_run s _RESET a wb Ha Hwb) by (unfold _RESET; lia).
    change _RESET with 7.
    destruct (writeto (i2c (self s)) (log s) a 7); cbn [fst snd emit log self];
      [ | rewrite <- app_assoc]; split; reflexivity.
Qed.

Lemma power_on_and_reset_settle_witness :
  let s := controller (mock_i2c [_ADDR_LOW] (x00, x00)%byte) _ADDR_LOW
             CONTINUOUS_HIGH_RESOLUTION _MTREG_DEFAULT in
  log (snd (reset s)) = [EWrite 0x23 0x07 true; ESleep 5].
Proof.
  intros s.
  refine (proj2 (proj2 (power_on_and_reset_settle s _ADDR_LOW _))).
  repeat split; discriminate.
Defined.

(** X9: [power_down] forgets nothing: it sends 0x00 and keeps the stored
    mode, so after a power cycle [set_mode] with the mode in use is still
    suppressed and the device is not given its measurement command again
    (unless forced); the whole sequence writes 0x00 and 0x01 only. *)
Theorem power_cycle_leaves_mode_suppressed (s : state) (a cur : Z) :
  ready s a -> mode (self s) = Some cur -> acks (i2c (self s)) a ->
  let s' := run_all [PowerDown; PowerOn; SetMode cur false] s in
  log s' = log s ++ [EWrite a 0x00 true; EWrite a 0x01 true; ESleep 5] /\
  writes (log s') = writes (log s) ++ [0x00; 0x01] /\
  mode (self s') = Some cur.
Proof.
  intros Hr Hm Hack.
  destruct s as [[b a0 wb rb t md] l]. unfold ready in Hr. cbn [self log addr _write_buf _read_buf i2c mode] in *.
  destruct Hr as (-> & Hw & _). subst md.
  destruct wb as [wb | ]; [ | congruence].
  assert (Hrun : run_all [PowerDown; PowerOn; SetMode cur false]
                    {| self := {| i2c := b; addr := Some a; _write_buf := Some wb;
                                  _read_buf := rb; mtreg := t; mode := Some cur |};
                       log := l |}
                 = {| self := {| i2c := b; addr := Some a; _write_buf := Some 1;
                                 _read_buf := rb; mtreg := t; mode := Some cur |};
                      log := l ++ [EWrite a 0 true; EWrite a 1 true; ESleep 5] |}).
  { cbn [run_all fold_left].
    assert (H1 : snd (run PowerDown
                   {| self := {| i2c := b; addr := Some a; _write_buf := Some wb;
                                 _read_buf := rb; mtreg := t; mode := Some cur |};
                      log := l |})
                 = {| self := {| i2c := b; addr := Some a; _write_buf := Some 0;
                                 _read_buf := rb; mtreg := t; mode := Some cur |};
                      log := l ++ [EWrite a 0 true] |}).
    { cbn [run]. unfold power_down, outcome.
      erewrite (_write_cmd_run _ _POWER_DOWN a wb);
        [ | reflexivity | reflexivity | unfold _POWER_DOWN; lia].
      cbn [self log i2c]. rewrite Hack. reflexivity. }
    rewrite H1.
    assert (H2 : snd (run PowerOn
                   {| self := {| i2c := b; addr := Some a; _write_buf := Some 0;
                                 _read_buf := rb; mtreg := t; mode := Some cur |};
                      log := l ++ [EWrite a 0 true] |})
                 = {| self := {| i2c := b; addr := Some a; _write_buf := Some 1;
                                 _read_buf := rb; mtreg := t; mode := Some cur |};
                      log := l ++ [EWrite a 0 true; EWrite a 1 true; ESleep 5] |}).
    { cbn [run]. unfold power_on, outcome, bind, sleep_ms.
      erewrite (_write_cmd_run _ _POWER_ON a 0);
        [ | reflexivity | reflexivity | unfold _POWER_ON; lia].
      cbn [self log i2c]. rewrite Hack. cbn [snd emit self log].
      rewrite <- !app_assoc. reflexivity. }
    rewrite H2.
    cbn [run]. unfold set_mode, outcome. py_unfold.
    rewrite Z.eqb_refl. reflexivity. }
  cbv zeta. rewrite Hrun. cbn [self log mode].
  split; [reflexivity | split; [ | reflexivity]].
  unfold writes. rewrite flat_map_app. reflexivity.
Qed.

Lemma power_cycle_leaves_mode_suppressed_witness :
  let s := controller (mock_i2c [_ADDR_LOW] (x00, x00)%byte) _ADDR_LOW
             CONTINUOUS_HIGH_RESOLUTION _MTREG_DEFAULT in
  writes (log (run_all [PowerDown; PowerOn; SetMode CONTINUOUS_HIGH_RESOLUTION false] s))
  = [0x00; 0x01].
Proof.
  intros s.
  apply (power_cycle_leaves_mode_suppressed s _ADDR_LOW CONTINUOUS_HIGH_RESOLUTION).
  - repeat split; discriminate.
  - reflexivity.
  - intros h byte. reflexivity.
Defined.

(** X10: once [set_mode m] has run, with or without force and whether its
    write went through or raised, a repeated [set_mode m] without force does
    nothing at all: the mode was stored before the write, so a plain retry
    after a bus error never reaches the device. *)
Theorem set_mode_retry_is_suppressed (s : state) (cur m : Z) (force : bool) :
  mode (self s) = Some cur ->
  let s1 := snd (set_mode m force s) in
  set_mode m false s1 = (inr tt, s1).
Proof.
  intros Hm s1.
  assert (H1 : mode (self s1) = Some m).
  { unfold s1. rewrite (set_mode_stores m force s cur Hm).
    destruct (cur =? m) eqn:E; cbn [andb]; [ | reflexivity].
    apply Z.eqb_eq in E. subst. now destruct (negb force). }
  unfold set_mode.
  rewrite (bind_inr _ _ s1 m s1) by (unfold getattr; now rewrite H1).
  now rewrite Z.eqb_refl.
Qed.

Lemma set_mode_retry_is_suppressed_witness :
  let s := controller (nack_i2c [_ADDR_LOW]) _ADDR_LOW
             CONTINUOUS_HIGH_RESOLUTION _MTREG_DEFAULT in
  fst (set_mode ONE_TIME_HIGH_RESOLUTION false s) =
    inl (OSError "BH1750 I2C write failed: [Errno 19] ENODEV") /\
  fst (set_mode ONE_TIME_HIGH_RESOLUTION false
         (snd (set_mode ONE_TIME_HIGH_RESOLUTION false s))) = inr tt.
Proof.
  intros s. split; [reflexivity | ].
  rewrite (set_mode_retry_is_suppressed s CONTINUOUS_HIGH_RESOLUTION
             ONE_TIME_HIGH_RESOLUTION false eq_refl).
  reflexivity.
Defined.

(** ** The register commands *)

(** X11: for every requested value the two bytes [set_mtreg] sends have the
    shapes the source comments give, [01000_MT[7:5]] and [011_MT[4:0]]: the
    upper five bits of the first are 01000, the upper three bits of the
    second are 011, and the payload bits put together give back the clamped
    register value, so nothing of it is lost in the split. *)
Theorem register_commands_decode (v : Z) :
  let c := clamp_mtreg v in
  Z.land (high_byte c) 0xF8 = 0x40 /\
  Z.land (low_byte c) 0xE0 = 0x60 /\
  Z.lor (Z.shiftl (Z.land (high_byte c) 0x07) 5) (Z.land (low_byte c) 0x1F) = c.
Proof.
  intros c.
  assert (H : register_bytes_agree c = true).
  { generalize (clamp_mtreg_range v). fold c. generalize c.
    apply forall_mtreg. vm_compute. reflexivity. }
  unfold register_bytes_agree in H.
  apply andb_true_iff in H. destruct H as [H H3].
  apply andb_true_iff in H. destruct H as [H1 H2].
  apply Z.eqb_eq in H1, H2, H3. now repeat split.
Qed.

(** X12: [set_mtreg] raises exactly when the device refuses one of the two
    bytes.  A refused first byte stops it there; a refused second byte
    leaves the device with half an update.  In both cases the clamped value
    is already the stored register. *)
Theorem set_mtreg_refused_bytes (s : state) (a v : Z) :
  ready s a ->
  let c := clamp_mtreg v in
  let r := set_mtreg v s in
  mtreg (self (snd r)) = Some c /\
  match writeto (i2c (self s)) (log s) a (high_byte c) with
  | Some msg =>
      fst r = inl (OSError ("BH1750 I2C write failed: " ++ msg)%string) /\
      log (snd r) = log s ++ [EWrite a (high_byte c) false]
  | None =>
      match writeto (i2c (self s)) (log s ++ [EWrite a (high_byte c) true]) a
                    (low_byte c) with
      | Some msg =>
          fst r = inl (OSError ("BH1750 I2C write failed: " ++ msg)%string) /\
          log (snd r) =
            log s ++ [EWrite a (high_byte c) true; EWrite a (low_byte c) false]
      | None =>
          fst r = inr tt /\
          log (snd r) =
            log s ++ [EWrite a (high_byte c) true; EWrite a (low_byte c) true]
      end
  end.
Proof.
  intros Hr c r. split; [apply set_mtreg_stores | ].
  unfold r. rewrite (set_mtreg_run s a v Hr). cbv zeta. fold c.
  destruct (writeto (i2c (self s)) (log s) a (high_byte c)); [split; reflexivity | ].
  destruct (writeto (i2c (self s)) _ a (low_byte c)); cbn [fst snd log];
    rewrite <- app_assoc; split; reflexivity.
Qed.

Lemma set_mtreg_refused_bytes_witness :
  let s := controller (nack_i2c [_ADDR_LOW]) _ADDR_LOW
             CONTINUOUS_HIGH_RESOLUTION _MTREG_DEFAULT in
  mtreg (self (snd (set_mtreg 31 s))) = Some 31.
Proof.
  intros s. apply (set_mtreg_refused_bytes s _ADDR_LOW 31).
  repeat split; discriminate.
Defined.

(** ** Raw readings *)

Lemma byte_of_Z_val (z : Z) : 0 <= z < 256 -> byte_val (byte_of_Z z) = z.
Proof.
  intros Hz. unfold byte_of_Z, byte_val.
  destruct (Byte.of_N (Z.to_N z)) as [b | ] eqn:E.
  - apply Byte.to_of_N in E. rewrite E. lia.
  - apply Byte.of_N_None_iff in E. lia.
Qed.

(** X13: [raw] performs one two-byte read at the stored address and never
    writes, and it leaves mode and register alone.  When the read succeeds
    it returns the big-endian value of the two bytes, always within
    0..65535, and the read buffer holds them; when the bus raises, the error
    is re-raised as OSError "BH1750 I2C read failed: <cause>". *)
Theorem raw_reading (s : state) (a : Z) :
  ready s a ->
  let r := raw s in
  writes (log (snd r)) = writes (log s) /\
  mode (self (snd r)) = mode (self s) /\ mtreg (self (snd r)) = mtreg (self s) /\
  match readfrom_into (i2c (self s)) (log s) a with
  | inr (hi, lo) =>
      fst r = inr (byte_val hi * 256 + byte_val lo) /\
      0 <= byte_val hi * 256 + byte_val lo <= 65535 /\
      _read_buf (self (snd r)) = Some (hi, lo) /\
      log (snd r) = log s ++ [ERead a true]
  | inl msg =>
      fst r = inl (OSError ("BH1750 I2C read failed: " ++ msg)%string) /\
      log (snd r) = log s ++ [ERead a false]
  end.
Proof.
  intros Hr. cbv zeta. rewrite (raw_run s a Hr).
  destruct (readfrom_into (i2c (self s)) (log s) a) as [msg | [hi lo]];
    cbn [fst snd self log _read_buf mode mtreg with_read_buf].
  - split; [unfold writes; rewrite flat_map_app; cbn; apply app_nil_r | ].
    destruct (failed_read_frame (self s) (log s) a) as (_ & _ & _ & Ht' & Hm' & _).
    repeat split; assumption.
  - split; [unfold writes; rewrite flat_map_app; cbn; apply app_nil_r | ].
    pose proof (raw16_range (hi, lo)) as Hrange. unfold raw16 in *.
    cbn [fst snd] in *. repeat split; lia.
Qed.

Lemma raw_reading_witness :
  let s := controller (mock_i2c [_ADDR_LOW] (xff, xff)%byte) _ADDR_LOW
             CONTINUOUS_HIGH_RESOLUTION _MTREG_DEFAULT in
  writes (log (snd (raw s))) = [].
Proof.
  intros s. apply (raw_reading s _ADDR_LOW). repeat split; discriminate.
Defined.

(** X14: every 16-bit value comes back unchanged: when the device answers
    with the bytes [n >> 8] and [n & 0xFF], [raw] returns [n]. *)
Theorem raw_round_trip (s : state) (a n : Z) :
  ready s a -> 0 <= n < 65536 ->
  readfrom_into (i2c (self s)) (log s) a =
    inr (byte_of_Z (Z.shiftr n 8), byte_of_Z (Z.land n 0xFF)) ->
  fst (raw s) = inr n.
Proof.
  intros Hr Hn Hread. rewrite (raw_run s a Hr), Hread. cbn [fst]. f_equal.
  unfold raw16. cbn [fst snd].
  rewrite Z.shiftr_div_pow2 by lia. change (2 ^ 8) with 256.
  change 255 with (Z.ones 8). rewrite Z.land_ones by lia. change (2 ^ 8) with 256.
  rewrite !byte_of_Z_val.
  - pose proof (Z.div_mod n 256). lia.
  - apply Z.mod_pos_bound. lia.
  - split; [apply Z.div_pos; lia | apply Z.div_lt_upper_bound; lia].
Qed.

Lemma raw_round_trip_witness :
  fst (raw (controller (mock_i2c [_ADDR_LOW] (xd5, x54)%byte) _ADDR_LOW
              CONTINUOUS_HIGH_RESOLUTION _MTREG_DEFAULT)) = inr 54612.
Proof.
  apply (raw_round_trip
           (controller (mock_i2c [_ADDR_LOW] (xd5, x54)%byte) _ADDR_LOW
              CONTINUOUS_HIGH_RESOLUTION _MTREG_DEFAULT) _ADDR_LOW 54612).
  - repeat split; discriminate.
  - lia.
  - reflexivity.
Defined.

(** ** Failures and bounds of a lux reading *)

Lemma wait_floor_bounds (m t : Z) :
  _MTREG_MIN <= t <= _MTREG_MAX ->
  10 <= wait_floor m t <= 662 /\ (t = 69 -> wait_floor m t = base_ms m).
Proof.
  unfold _MTREG_MIN, _MTREG_MAX, wait_floor, base_ms. intros Ht.
  destruct (in_tuple m [16; 17; 32; 33]).
  - split; [ | intros ->; reflexivity].
    assert (H : 180 * t / 69 < 663) by (apply Z.div_lt_upper_bound; lia).
    split; [apply Z.div_le_lower_bound | ]; lia.
  - split; [ | intros ->; reflexivity].
    assert (H : 24 * t / 69 < 663) by (apply Z.div_lt_upper_bound; lia).
    split; [apply Z.div_le_lower_bound | ]; lia.
Qed.

(** X15: a [lux] call blocks in at most one sleep, and for a register in
    [31, 254] that sleep lasts between 10 and 662 ms whatever the mode; at
    the default register 69 it is the base time itself, 180 or 24 ms. *)
Theorem lux_wait_bounds (s : state) (a m t : Z) :
  ready s a -> mode (self s) = Some m -> mtreg (self s) = Some t ->
  31 <= t <= 254 ->
  let base := if in_tuple m [0x10; 0x11; 0x20; 0x21] then 180 else 24 in
  let w := base * t / 69 in
  10 <= w <= 662 /\ (t = 69 -> w = base) /\
  exists l, log (snd (lux s)) = log s ++ l /\ (sleeps l = [] \/ sleeps l = [w]).
Proof.
  intros Hr Hm Ht Hrange base w.
  destruct (wait_floor_bounds m t Hrange) as [Hb Hd].
  split; [exact Hb | split; [exact Hd | ]].
  assert (Hmeasure : forall s0, ready s0 a -> mode (self s0) = Some m ->
            mtreg (self s0) = Some t ->
            exists ok, log (snd (measure s0)) = log s0 ++ [ESleep w; ERead a ok]).
  { intros s0 Hr0 Hm0 Ht0. rewrite (measure_run s0 a m t Hr0 Hm0 Ht0 Hrange).
    cbv zeta. change (wait_floor m t) with w.
    destruct (readfrom_into _ _ a); cbn [snd log];
      rewrite <- app_assoc; eexists; reflexivity. }
  rewrite (lux_run s m Hm).
  destruct (Z.land m 240 =? 32).
  2:{ destruct (Hmeasure s Hr Hm Ht) as [ok ->]. eexists. split; [reflexivity | now right]. }
  destruct (Z_le_dec 0 m) as [Hlo | Hlo]; [destruct (Z_lt_dec m 256) as [Hhi | Hhi] | ].
  - rewrite (set_mode_run s a m m true Hr Hm (conj Hlo Hhi)), andb_false_r.
    destruct (writeto (i2c (self s)) (log s) a m) as [msg | ].
    + eexists. split; [reflexivity | now left].
    + match goal with
      | |- context [measure ?s0] => destruct (Hmeasure s0) as [ok ->]
      end.
      * apply (ready_after s); [exact Hr | reflexivity | discriminate | apply Hr].
      * reflexivity.
      * exact Ht.
      * cbn [log]. rewrite <- app_assoc. eexists. split; [reflexivity | now right].
  - rewrite (set_mode_bad_byte s a m m Hr Hm) by lia.
    exists []. split; [cbn [snd log]; now rewrite app_nil_r | now left].
  - rewrite (set_mode_bad_byte s a m m Hr Hm) by lia.
    exists []. split; [cbn [snd log]; now rewrite app_nil_r | now left].
Qed.

Lemma lux_wait_bounds_witness :
  let s := controller (mock_i2c [_ADDR_LOW] (x00, x00)%byte) _ADDR_LOW
             ONE_TIME_HIGH_RESOLUTION_2 254 in
  exists l, log (snd (lux s)) = l /\ (sleeps l = [] \/ sleeps l = [662]).
Proof.
  intros s.
  destruct (lux_wait_bounds s _ADDR_LOW ONE_TIME_HIGH_RESOLUTION_2 254)
    as (_ & _ & l & Hl & Hs).
  - repeat split; discriminate.
  - reflexivity.
  - reflexivity.
  - lia.
  - exists l. split; [exact Hl | exact Hs].
Defined.

(** X16: when the device does not answer the read, [lux] has already waited
    the full measurement time (and, in a one-shot mode, re-issued the mode);
    it then raises OSError "BH1750 I2C read failed: <cause>" and returns no
    value, with mode and register as before. *)
Theorem lux_read_failure (s : state) (a m t : Z) (msg : string) :
  ready s a -> mode (self s) = Some m -> mtreg (self s) = Some t ->
  31 <= t <= 254 ->
  (forall h, readfrom_into (i2c (self s)) h a = inl msg) ->
  (Z.land m 0xF0 = 0x20 -> 0 <= m < 256 /\ acks (i2c (self s)) a) ->
  let w := (if in_tuple m [0x10; 0x11; 0x20; 0x21] then 180 else 24) * t / 69 in
  let r := lux s in
  fst r = inl (OSError ("BH1750 I2C read failed: " ++ msg)%string) /\
  log (snd r) =
    log s ++ (if Z.land m 0xF0 =? 0x20 then [EWrite a m true] else [])
          ++ [ESleep w; ERead a false] /\
  mode (self (snd r)) = Some m /\ mtreg (self (snd r)) = Some t.
Proof.
  intros Hr Hm Ht Hrange Hread Hone w r.
  assert (Hmeasure : forall s0, ready s0 a -> mode (self s0) = Some m ->
            mtreg (self s0) = Some t -> i2c (self s0) = i2c (self s) ->
            measure s0 =
              (inl (OSError ("BH1750 I2C read failed: " ++ msg)%string),
               {| self := failed_read (self s0) (log s0 ++ [ESleep w]) a;
                  log := log s0 ++ [ESleep w; ERead a false] |})).
  { intros s0 Hr0 Hm0 Ht0 Hb. rewrite (measure_run s0 a m t Hr0 Hm0 Ht0 Hrange).
    cbv zeta. rewrite Hb, Hread. change (wait_floor m t) with w.
    now rewrite <- app_assoc. }
  unfold r. rewrite (lux_run s m Hm).
  destruct (Z.eqb_spec (Z.land m 240) 32) as [H1 | H1].
  - destruct (Hone H1) as [Hbyte Hack].
    rewrite (set_mode_run s a m m true Hr Hm Hbyte), andb_false_r, Hack.
    rewrite Hmeasure; try reflexivity; [ | | exact Ht].
    + cbn [fst snd self log].
      match goal with
      | |- context [failed_read ?o ?h ?x] =>
          destruct (failed_read_frame o h x) as (_ & _ & _ & Ht' & Hm' & _)
      end.
      rewrite Ht', Hm', <- app_assoc. repeat split. exact Ht.
    + apply (ready_after s); [exact Hr | reflexivity | discriminate | apply Hr].
  - rewrite (Hmeasure s Hr Hm Ht eq_refl). cbn [fst snd self log app].
    destruct (failed_read_frame (self s) (log s ++ [ESleep w]) a)
      as (_ & _ & _ & Ht' & Hm' & _).
    rewrite Ht', Hm'. repeat split; assumption.
Qed.

Lemma lux_read_failure_witness :
  let s := controller (nack_i2c [_ADDR_LOW]) _ADDR_LOW
             CONTINUOUS_LOW_RESOLUTION _MTREG_DEFAULT in
  fst (lux s) = inl (OSError "BH1750 I2C read failed: [Errno 19] ENODEV").
Proof.
  intros s.
  apply (lux_read_failure s _ADDR_LOW CONTINUOUS_LOW_RESOLUTION _MTREG_DEFAULT
           "[Errno 19] ENODEV").
  - repeat split; discriminate.
  - reflexivity.
  - reflexivity.
  - unfold _MTREG_DEFAULT. lia.
  - intros h. reflexivity.
  - discriminate.
Defined.

(** X17: in a one-shot mode, when the device refuses the re-issued mode
    byte, [lux] raises the write error straight away: it neither waits nor
    reads, and the stored mode stays. *)
Theorem lux_one_shot_refused (s : state) (a m : Z) (msg : string) :
  ready s a -> mode (self s) = Some m ->
  Z.land m 0xF0 = 0x20 -> 0 <= m < 256 ->
  writeto (i2c (self s)) (log s) a m = Some msg ->
  let r := lux s in
  fst r = inl (OSError ("BH1750 I2C write failed: " ++ msg)%string) /\
  log (snd r) = log s ++ [EWrite a m false] /\
  mode (self (snd r)) = Some m.
Proof.
  intros Hr Hm Hone Hbyte Hw r. unfold r.
  rewrite (lux_run s m Hm), Hone, Z.eqb_refl.
  rewrite (set_mode_run s a m m true Hr Hm Hbyte), andb_false_r, Hw.
  repeat split.
Qed.

Lemma lux_one_shot_refused_witness :
  let s := controller (nack_i2c [_ADDR_LOW]) _ADDR_LOW
             ONE_TIME_LOW_RESOLUTION _MTREG_DEFAULT in
  log (snd (lux s)) = [EWrite 0x23 0x23 false].
Proof.
  intros s.
  apply (lux_one_shot_refused s _ADDR_LOW ONE_TIME_LOW_RESOLUTION "[Errno 19] ENODEV").
  - repeat split; discriminate.
  - reflexivity.
  - reflexivity.
  - unfold ONE_TIME_LOW_RESOLUTION. lia.
  - reflexivity.
Defined.

(** ** A new sensitivity takes effect on the next reading *)

(** X18: after [set_mtreg v] on a responsive device, the next [lux] in a
    continuous mode works with the clamped value: it waits
    [floor(base_ms * c / 69)] ms and scales the reading by [69 / c]. *)
Theorem set_mtreg_then_lux (s : state) (a m v : Z) (d : byte * byte) :
  ready s a -> mode (self s) = Some m -> Z.land m 0xF0 <> 0x20 ->
  acks (i2c (self s)) a -> reads (i2c (self s)) a d ->
  let c := Z.max 31 (Z.min v 254) in
  let w := (if in_tuple m [0x10; 0x11; 0x20; 0x21] then 180 else 24) * c / 69 in
  let lx := Float.mul (Float.div (Float.of_int (byte_val (fst d) * 256 + byte_val (snd d)))
                                 Float.lit_1_2)
                      (Float.div (Float.of_int 69) (Float.of_int c)) in
  let s1 := snd (set_mtreg v s) in
  fst (set_mtreg v s) = inr tt /\
  fst (lux s1) =
    inr (if (m =? 0x11) || (m =? 0x21) then Float.div lx Float.lit_2_0 else lx) /\
  log (snd (lux s1)) = log s1 ++ [ESleep w; ERead a true].
Proof.
  intros Hr Hm Hcont Hack Hread c w lx s1.
  assert (Hrun : set_mtreg v s =
            (inr tt, {| self := with_write_buf (low_byte c) (with_mtreg c (self s));
                        log := (log s ++ [EWrite a (high_byte c) true])
                                 ++ [EWrite a (low_byte c) true] |})).
  { rewrite (set_mtreg_run s a v Hr). cbv zeta. now rewrite !Hack. }
  unfold s1. rewrite Hrun. cbn [fst snd]. split; [reflexivity | ].
  match goal with |- context [lux ?s0] => set (s2 := s0) end.
  assert (Hr2 : ready s2 a)
    by (apply (ready_after s); [exact Hr | reflexivity | discriminate | apply Hr]).
  assert (Hm2 : mode (self s2) = Some m) by exact Hm.
  assert (Ht2 : mtreg (self s2) = Some c) by reflexivity.
  rewrite (lux_run s2 m Hm2).
  destruct (Z.eqb_spec (Z.land m 240) 32) as [H1 | _]; [contradiction | ].
  rewrite (measure_run s2 a m c Hr2 Hm2 Ht2 (clamp_mtreg_range v)).
  cbv zeta. change (i2c (self s2)) with (i2c (self s)). rewrite Hread.
  cbn [fst snd log]. split; [reflexivity | now rewrite <- app_assoc].
Qed.

Lemma set_mtreg_then_lux_witness :
  let s := controller (mock_i2c [_ADDR_LOW] (xd5, x54)%byte) _ADDR_LOW
             CONTINUOUS_HIGH_RESOLUTION _MTREG_DEFAULT in
  log (snd (lux (snd (set_mtreg 138 s)))) =
    [EWrite 0x23 0x44 true; EWrite 0x23 0x6A true; ESleep 360; ERead 0x23 true].
Proof.
  intros s.
  apply (set_mtreg_then_lux s _ADDR_LOW CONTINUOUS_HIGH_RESOLUTION 138 (xd5, x54)%byte).
  - repeat split; discriminate.
  - reflexivity.
  - discriminate.
  - intros h byte. reflexivity.
  - intros h. reflexivity.
Defined.

(** ** The register after construction *)





